(** * network-importer: the cabling pass and the VLAN registry

    A shallow embedding of [NetworkImporter.import_cabling_from_configs]
    and of the two VLAN import loops of [network_importer/main.py],
    with the properties the design document states about them; and of the
    filter parameters of [build_inventory], the site loop of [init] and
    the network name of [init_bf_session], with properties read off the
    code.

    Python strings are modelled as [string]: one [ascii] per code point,
    which is exact for names whose code points are below 256 (there [\d]
    is [0-9] and [<] on [str] is the byte-wise order of [String.ltb]).
    Dictionaries are [gmap]s. *)

From Stdlib Require Import ZArith Ascii String.
From stdpp Require Import base option list gmap strings fin_maps pretty.

(** ** Python library functions used by the pass *)

Module Py.

(** [\d] on code points below 256. *)
Definition is_digit (c : ascii) : bool :=
  (48 <=? nat_of_ascii c)%nat && (nat_of_ascii c <=? 57)%nat.

(** Greedy [\d*]: what is left after the longest run of digits. *)
Fixpoint skip_digits (s : string) : string :=
  match s with
  | String c s' => if is_digit c then skip_digits s' else s
  | EmptyString => s
  end.

(** [$] without [re.MULTILINE]: at the end of the string, or just before a
    newline that is the last character. *)
Definition at_dollar (s : string) : bool :=
  match s with
  | EmptyString => true
  | String c EmptyString => Ascii.eqb c "010"%char
  | _ => false
  end.

(** An anchored attempt of the pattern [\.\d+$] at the start of [s]; the
    text after the match when it succeeds.  Giving characters back from
    the greedy [\d+] never helps: the next character is then a digit, where
    [$] fails. *)
Definition match_here (s : string) : option string :=
  match s with
  | String dot (String d r) =>
      if Ascii.eqb dot "."%char && is_digit d then
        let rest := skip_digits r in
        if at_dollar rest then Some rest else None
      else None
  | _ => None
  end.

(** [re.sub] with the pattern [\.\d+$] and the empty replacement: scan
    from the left, drop the first match.
    What follows a match is empty or a single newline, where the pattern
    cannot match again (lemma [match_here_after]), so the scan ends there. *)
Fixpoint re_sub (s : string) : string :=
  match match_here s with
  | Some rest => rest
  | None =>
      match s with
      | EmptyString => EmptyString
      | String c s' => String c (re_sub s')
      end
  end.

(** [sorted(l)] on strings: a stable insertion sort under [<]. *)
Fixpoint insort (x : string) (l : list string) : list string :=
  match l with
  | [] => [x]
  | y :: l' => if String.ltb x y then x :: y :: l' else y :: insort x l'
  end.

Definition sorted (l : list string) : list string :=
  foldl (fun acc x => insort x acc) [] l.

(** [sep.join(l)]. *)
Fixpoint join (sep : string) (l : list string) : string :=
  match l with
  | [] => EmptyString
  | [x] => x
  | x :: l' => x +:+ sep +:+ join sep l'
  end.

End Py.


(** ** Data model *)

(** Modelled from the spec: the far end recorded by the system of record
    ([connected_endpoint.device.name], [connected_endpoint.name]); the
    classes of [network_importer/model.py] and the pynetbox records are not
    among the sources. *)
Record ConnectedEndpoint := {
  device_name : string;
  name : string;
}.

(** Modelled from the spec: the [remote] handle of an interface: remote id,
    [connection_status], nullable [connected_endpoint]. *)
Record RemoteInterface := {
  id : Z;
  connection_status : bool;
  connected_endpoint : option ConnectedEndpoint;
}.

(** Modelled from the spec: [NetworkImporterInterface], as far as the
    cabling pass reads it; [remote] is [None] when the interface does not
    exist remotely. *)
Record NetworkImporterInterface := {
  is_virtual : bool;
  remote : option RemoteInterface;
}.

(** Modelled from the spec: [NetworkImporterDevice] owns a mapping from
    interface names to interfaces. *)
Record NetworkImporterDevice := {
  interfaces : gmap string NetworkImporterInterface;
}.

(** [self.devs.inventory.hosts], each host standing for its [data["obj"]]. *)
Abbreviation Hosts := (gmap string NetworkImporterDevice).

(** One end of a layer-3 edge as the analysis service reports it. *)
Record BfInterface := {
  hostname : string;
  interface : string;
}.

(** A row of [p2p_links.frame()].  A cell that holds no interface object is
    [None]: reading [.hostname] from it raises. *)
Record Link := {
  Interface : option BfInterface;
  Remote_Interface : option BfInterface;
}.

Definition mk_link (lh li rh ri : string) : Link :=
  {| Interface := Some {| hostname := lh; interface := li |};
     Remote_Interface := Some {| hostname := rh; interface := ri |} |}.

(** ** What the pass emits *)

Inductive Level := DEBUG | INFO | WARNING.

(** One constructor per [logger] call of the pass, with the values its
    message is formatted from. *)
Inductive Message :=
| MsgAlreadyConnected (unique_id : string)
| MsgHostNotPresent (host : string)
| MsgIntfNotPresent (host intf : string)
| MsgVirtual (host intf : string)
| MsgRemoteNotPresent (host intf : string)
| MsgDifferentDevice (host intf reported expected : string)
| MsgDifferentInterface (host intf reported expected : string)
| MsgWillCreate (local_host local_intf remote_host remote_intf : string)
| MsgWentWrong (unique_id : string).

Definition level (m : Message) : Level :=
  match m with
  | MsgAlreadyConnected _ | MsgHostNotPresent _ | MsgVirtual _ _ => DEBUG
  | MsgWillCreate _ _ _ _ => INFO
  | _ => WARNING
  end.

(** [CablesCreate a b ok] is one call
    [self.nb.dcim.cables.create(termination_a_id=a, termination_b_id=b)];
    [ok] tells whether the call returned or raised. *)
Inductive Event :=
| Log (m : Message)
| CablesCreate (termination_a_id termination_b_id : Z) (ok : bool).

Global Instance Message_eq_dec : EqDecision Message.
Proof. solve_decision. Defined.
Global Instance Event_eq_dec : EqDecision Event.
Proof. solve_decision. Defined.

(** Kinds of events, and how many of a kind a list holds. *)
Definition conflict_diag (m : Message) : bool :=
  match m with
  | MsgDifferentDevice _ _ _ _ | MsgDifferentInterface _ _ _ _ => true
  | _ => false
  end.

Definition is_request (e : Event) : bool :=
  match e with CablesCreate _ _ _ => true | Log _ => false end.

Definition is_created (e : Event) : bool :=
  match e with CablesCreate _ _ ok => ok | Log _ => false end.

Definition is_failed (e : Event) : bool :=
  match e with CablesCreate _ _ ok => negb ok | Log _ => false end.

Definition is_conflict (e : Event) : bool :=
  match e with Log m => conflict_diag m | CablesCreate _ _ _ => false end.

Definition count_in (p : Event → bool) (evs : list Event) : nat :=
  length (List.filter p evs).

(** Lines 531-533: the key of a link, from the two [host:interface]
    strings. *)
Definition unique_id (local_host local_intf remote_host remote_intf : string)
  : string :=
  Py.join "_" (Py.sorted [local_host +:+ ":" +:+ local_intf;
                          remote_host +:+ ":" +:+ remote_intf]).

(** The local variables of the loop body. *)
Record Names := {
  local_host : string;
  local_intf : string;
  remote_host : string;
  remote_intf : string;
}.

(** The [unique_id] of the loop body. *)
Definition key (n : Names) : string :=
  unique_id (local_host n) (local_intf n) (remote_host n) (remote_intf n).

(** Lines 526-529: the four names, subinterface suffixes removed.  [None]
    when an attribute read raises; this happens before the [try]. *)
Definition names (link : Link) : option Names :=
  match Interface link, Remote_Interface link with
  | Some a, Some b =>
      Some {| local_host := hostname a;
              local_intf := Py.re_sub (interface a);
              remote_host := hostname b;
              remote_intf := Py.re_sub (interface b) |}
  | _, _ => None
  end.

(** ** The cabling pass *)

(** The loop's state: the inventory [self.devs] (threaded so that the pass
    can be shown not to touch it), the local dictionary
    [already_connected_links], and the system of record behind [self.nb]. *)
Record LoopState {NetBox : Type} := {
  devs : Hosts;
  already_connected_links : gmap string Z;
  nb : NetBox;
}.
Global Arguments LoopState : clear implicits.

(** What one iteration leaves behind: the key it computed and what it
    logged and requested, in order. *)
Record Iteration := {
  it_key : string;
  it_events : list Event;
}.

Section Cabling.

(** The system of record is a collaborator: a state and the effect of one
    cable-creation request on it, with whether the call returned ([true])
    or raised ([false]). *)
Context {NetBox : Type}.
Variable cables_create : NetBox -> Z -> Z -> NetBox * bool.

Abbreviation State := (LoopState NetBox).

(** How the body of the [try] ends: by [continue] or the end of the body,
    or by an exception. *)
Inductive Ending := Normal | Exception.

Definition skip (st : State) (m : Message) : State * list Event * Ending :=
  (st, [Log m], Normal).

(** Lines 585-605 and 607-627: the interface [host:intf] is connected;
    compare what the system of record holds with the expected far end. *)
Definition check_connected (st : State) (host intf : string)
    (r : RemoteInterface) (far_host far_intf : string)
  : State * list Event * Ending :=
  match connected_endpoint r with
  | None => (st, [], Exception)
  | Some ep =>
      let host_reported := device_name ep in
      let int_reported := name ep in
      if bool_decide (host_reported ≠ far_host) then
        (st, [Log (MsgDifferentDevice host intf host_reported far_host)], Normal)
      else if bool_decide (host_reported = far_host)
              && bool_decide (far_intf ≠ int_reported) then
        (st, [Log (MsgDifferentInterface host intf int_reported far_intf)], Normal)
      else (st, [], Normal)
  end.

(** Lines 537-640, the body of the [try]. *)
Definition try_body (st : State) (n : Names) : State * list Event * Ending :=
  let local_host := local_host n in
  let local_intf := local_intf n in
  let remote_host := remote_host n in
  let remote_intf := remote_intf n in
  let unique_id := key n in
  if bool_decide (is_Some (already_connected_links st !! unique_id)) then
    skip st (MsgAlreadyConnected unique_id)
  else
  match devs st !! local_host with
  | None => skip st (MsgHostNotPresent local_host)
  | Some local_obj =>
  match devs st !! remote_host with
  | None => skip st (MsgHostNotPresent remote_host)
  | Some remote_obj =>
  match interfaces local_obj !! local_intf with
  | None => skip st (MsgIntfNotPresent local_host local_intf)
  | Some li =>
  match interfaces remote_obj !! remote_intf with
  | None => skip st (MsgIntfNotPresent remote_host remote_intf)
  | Some ri =>
  if is_virtual li then skip st (MsgVirtual local_host local_intf)
  else if is_virtual ri then skip st (MsgVirtual remote_host remote_intf)
  else
  match remote li with
  | None => skip st (MsgRemoteNotPresent local_host local_intf)
  | Some lr =>
  match remote ri with
  | None => skip st (MsgRemoteNotPresent remote_host remote_intf)
  | Some rr =>
  if connection_status lr then
    check_connected st local_host local_intf lr remote_host remote_intf
  else if connection_status rr then
    check_connected st remote_host remote_intf rr local_host local_intf
  else
    let '(nb', ok) := cables_create (nb st) (id lr) (id rr) in
    let evs := [Log (MsgWillCreate local_host local_intf remote_host remote_intf);
                CablesCreate (id lr) (id rr) ok] in
    if ok then
      ({| devs := devs st;
          already_connected_links :=
            <[unique_id := 1%Z]> (already_connected_links st);
          nb := nb' |}, evs, Normal)
    else
      ({| devs := devs st;
          already_connected_links := already_connected_links st;
          nb := nb' |}, evs, Exception)
  end end end end end end.

(** Step 6 once both remote handles are known. *)
Definition connect (st : State) (n : Names) (lr rr : RemoteInterface)
    : State * list Event * Ending :=
  if connection_status lr then
    check_connected st (local_host n) (local_intf n) lr
                    (remote_host n) (remote_intf n)
  else if connection_status rr then
    check_connected st (remote_host n) (remote_intf n) rr
                    (local_host n) (local_intf n)
  else
    let '(nb', ok) := cables_create (nb st) (id lr) (id rr) in
    let evs := [Log (MsgWillCreate (local_host n) (local_intf n)
                                   (remote_host n) (remote_intf n));
                CablesCreate (id lr) (id rr) ok] in
    if ok then
      ({| devs := devs st;
          already_connected_links :=
            <[key n := 1%Z]> (already_connected_links st);
          nb := nb' |}, evs, Normal)
    else
      ({| devs := devs st;
          already_connected_links := already_connected_links st;
          nb := nb' |}, evs, Exception).

(** The two ways a turn of the loop can go: it requests nothing and leaves
    the state as it was, or its key is new and it issues one request,
    recording the key when the request returned. *)
Inductive turn (st : State) (n : Names) : State → list Event → Ending → Prop :=
| turn_quiet evs e :
    count_in is_request evs = 0 →
    turn st n st evs e
| turn_create a b nb' ok :
    already_connected_links st !! key n = None →
    cables_create (nb st) a b = (nb', ok) →
    turn st n
      {| devs := devs st;
         already_connected_links :=
           if ok then <[key n := 1%Z]> (already_connected_links st)
           else already_connected_links st;
         nb := nb' |}
      [Log (MsgWillCreate (local_host n) (local_intf n)
                          (remote_host n) (remote_intf n));
       CablesCreate a b ok]
      (if ok then Normal else Exception).

(** One turn of the [for] loop (lines 524-645): the names and the key, then
    the [try] with its catch-all handler.  [None]: an exception left the
    loop body. *)
Definition loop_body (st : State) (link : Link) : option (State * Iteration) :=
  match names link with
  | None => None
  | Some n =>
      let '(st', evs, e) := try_body st n in
      let evs' :=
        match e with
        | Normal => evs
        | Exception => evs ++ [Log (MsgWentWrong (key n))]
        end in
      Some (st', {| it_key := key n; it_events := evs' |})
  end.

(** The [for] loop.  The boolean tells whether an exception left it. *)
Fixpoint for_links (st : State) (links : list Link)
  : State * list Iteration * bool :=
  match links with
  | [] => (st, [], false)
  | link :: rest =>
      match loop_body st link with
      | None => (st, [], true)
      | Some (st', it) =>
          let '(st'', its, raised) := for_links st' rest in
          (st'', it :: its, raised)
      end
  end.

(** How the method ends. *)
Inductive Return := ReturnFalse | ReturnNone | Raised.

(** [import_cabling_from_configs], given [config.main["import_cabling"]]
    and the rows of [self.bf.q.layer3Edges().answer().frame()]. *)
Definition import_cabling_from_configs (import_cabling : bool)
    (hosts : Hosts) (netbox : NetBox) (p2p_links : list Link)
  : State * list Iteration * Return :=
  let st := {| devs := hosts; already_connected_links := ∅; nb := netbox |} in
  if negb import_cabling then (st, [], ReturnFalse)
  else
    let '(st', its, raised) := for_links st p2p_links in
    (st', its, if raised then Raised else ReturnNone).

End Cabling.

(** ** Vocabulary of the properties *)

(** The interface the pass finds for [host:intf], and its remote handle. *)
Definition lookup_intf (hosts : Hosts) (host intf : string)
  : option NetworkImporterInterface :=
  hosts !! host ≫= λ d, interfaces d !! intf.

Definition lookup_remote (hosts : Hosts) (host intf : string)
  : option RemoteInterface :=
  lookup_intf hosts host intf ≫= remote.

(** The end [host:intf] is virtual. *)
Definition virtual_end (hosts : Hosts) (host intf : string) : bool :=
  match lookup_intf hosts host intf with
  | Some i => is_virtual i
  | None => false
  end.

(** The system of record holds a connection on the end [host:intf]. *)
Definition connected_end (hosts : Hosts) (host intf : string) : bool :=
  match lookup_remote hosts host intf with
  | Some r => connection_status r
  | None => false
  end.

(** The diagnostics of the skips before conflict detection. *)
Definition skip_diag (m : Message) : bool :=
  match m with
  | MsgAlreadyConnected _ | MsgHostNotPresent _ | MsgIntfNotPresent _ _
  | MsgVirtual _ _ | MsgRemoteNotPresent _ _ => true
  | _ => false
  end.

(** The diagnostics that precede any look at a remote handle. *)
Definition early_skip_diag (m : Message) : bool :=
  match m with
  | MsgAlreadyConnected _ | MsgHostNotPresent _ | MsgIntfNotPresent _ _
  | MsgVirtual _ _ => true
  | _ => false
  end.

(** How many events satisfying [p] the iterations with key [k] hold. *)
Fixpoint count_for (p : Event → bool) (k : string) (its : list Iteration)
  : nat :=
  match its with
  | [] => 0
  | it :: rest =>
      (if bool_decide (it_key it = k) then count_in p (it_events it) else 0)
      + count_for p k rest
  end.

(** Every creation request of a run, whatever the key. *)
Definition all_requests (its : list Iteration) : list Event :=
  List.filter is_request (concat (it_events <$> its)).

(** The same observation seen from the other end. *)
Definition swap (n : Names) : Names :=
  {| local_host := remote_host n; local_intf := remote_intf n;
     remote_host := local_host n; remote_intf := local_intf n |}.

Definition reversed (link : Link) : Link :=
  {| Interface := Remote_Interface link; Remote_Interface := Interface link |}.

(** Some end of the observed link holds a connection in the system of
    record. *)
Definition link_connected (hosts : Hosts) (link : Link) : bool :=
  match names link with
  | Some n =>
      connected_end hosts (local_host n) (local_intf n)
      || connected_end hosts (remote_host n) (remote_intf n)
  | None => false
  end.

(** Steps 2 to 5 as one decision: the diagnostic of the first check that
    stops the observation, or the two remote handles. *)
Definition gates (hosts : Hosts) (acl : gmap string Z) (n : Names)
  : Message + RemoteInterface * RemoteInterface :=
  if bool_decide (is_Some (acl !! key n)) then inl (MsgAlreadyConnected (key n))
  else
  match hosts !! local_host n with
  | None => inl (MsgHostNotPresent (local_host n))
  | Some lo =>
  match hosts !! remote_host n with
  | None => inl (MsgHostNotPresent (remote_host n))
  | Some ro =>
  match interfaces lo !! local_intf n with
  | None => inl (MsgIntfNotPresent (local_host n) (local_intf n))
  | Some li =>
  match interfaces ro !! remote_intf n with
  | None => inl (MsgIntfNotPresent (remote_host n) (remote_intf n))
  | Some ri =>
  if is_virtual li then inl (MsgVirtual (local_host n) (local_intf n))
  else if is_virtual ri then inl (MsgVirtual (remote_host n) (remote_intf n))
  else
  match remote li with
  | None => inl (MsgRemoteNotPresent (local_host n) (local_intf n))
  | Some lr =>
  match remote ri with
  | None => inl (MsgRemoteNotPresent (remote_host n) (remote_intf n))
  | Some rr => inr (lr, rr)
  end end end end end end.

(** The observation reaches conflict detection (step 6) with the remote
    handles [lr] and [rr]: its key is new and both ends are known, physical
    and present remotely. *)
Definition eligible (hosts : Hosts) (acl : gmap string Z) (n : Names)
    (lr rr : RemoteInterface) : Prop :=
  acl !! key n = None ∧
  ∃ li ri,
    lookup_intf hosts (local_host n) (local_intf n) = Some li ∧
    lookup_intf hosts (remote_host n) (remote_intf n) = Some ri ∧
    is_virtual li = false ∧ is_virtual ri = false ∧
    remote li = Some lr ∧ remote ri = Some rr.

(** Rewrites the connection recorded on [host:intf], where that interface
    has a remote handle; everything else is kept. *)
Definition set_connection (hosts : Hosts) (host intf : string)
    (cs : bool) (ep : option ConnectedEndpoint) : Hosts :=
  alter (λ d,
    {| interfaces :=
         alter (λ i,
           {| is_virtual := is_virtual i;
              remote := (λ r, {| id := id r; connection_status := cs;
                                 connected_endpoint := ep |}) <$> remote i |})
           intf (interfaces d) |}) host hosts.

(** A non-empty run of decimal digits, the [\d+] of the pattern. *)
Fixpoint all_digits (s : string) : bool :=
  match s with
  | EmptyString => false
  | String c EmptyString => Py.is_digit c
  | String c s' => Py.is_digit c && all_digits s'
  end.

(** From the wording of the design document: strip a trailing
    [.<digits>] suffix, leave any other name alone. *)
Fixpoint strip_subinterface (s : string) : string :=
  match s with
  | EmptyString => EmptyString
  | String c s' =>
      if Ascii.eqb c "."%char && all_digits s' then EmptyString
      else String c (strip_subinterface s')
  end.

(** The name does not end with a newline. *)
Fixpoint no_final_newline (s : string) : bool :=
  match s with
  | EmptyString => true
  | String c EmptyString => negb (Ascii.eqb c "010"%char)
  | String _ s' => no_final_newline s'
  end.

(** ** The site VLAN registry *)

Inductive Source := ConfigAnalysis | CliCollection.

(** Modelled from the spec: the Vlan entity of a site ([model.py] is not
    among the sources): [vid], [name] and the two existence flags. *)
Record Vlan := {
  vid : Z;
  vlan_name : string;
  exists_locally : bool;
  exists_remotely : bool;
}.

(** Modelled from the spec: a site owns a registry of Vlan objects keyed by
    VLAN id ([site.vlans]). *)
Record NetworkImporterSite := {
  site_name : string;
  vlans : gmap Z Vlan;
}.

(** A record of [data["vlans"]] as the CLI collection returns it. *)
Record CliVlan := {
  cli_name : string;
  vlan_id : Z;
}.

Section Registry.

(** Which discovery source may overwrite the name of a known VLAN is left
    open by the design. *)
Variable authoritative : Source → bool.

(** [NetworkImporterSite.add_vlan2] is neither among the sources nor in the
    design document; it is kept abstract. *)
Variable add_vlan2 : NetworkImporterSite → string → Z → NetworkImporterSite.

(** Modelled from the spec: [NetworkImporterSite.add_vlan], which
    [model.py] defines.  Keyed by [(site, vid)]: the first insertion creates
    the Vlan with [exists_locally = true]; an insertion for a known [vid]
    keeps the existing record and only upgrades its name when the source is
    authoritative. *)
Definition add_vlan (site : NetworkImporterSite) (vid0 : Z) (name0 : string)
    (source : Source) : NetworkImporterSite :=
  match vlans site !! vid0 with
  | None =>
      {| site_name := site_name site;
         vlans := <[vid0 := {| vid := vid0; vlan_name := name0;
                               exists_locally := true;
                               exists_remotely := false |}]> (vlans site) |}
  | Some v =>
      if authoritative source then
        {| site_name := site_name site;
           vlans := <[vid0 := {| vid := vid v; vlan_name := name0;
                                 exists_locally := exists_locally v;
                                 exists_remotely := exists_remotely v |}]>
                      (vlans site) |}
      else site
  end.

(** [import_devices_from_configs], lines 252-260, for one device: every
    VLAN id of the analysis goes to the site of the device, named
    [vlan-<id>]. *)
Definition import_vlans_config (site : NetworkImporterSite)
    (bf_vlans : list Z) : NetworkImporterSite :=
  foldl (λ s VLAN_ID,
           add_vlan s VLAN_ID ("vlan-" +:+ pretty VLAN_ID) ConfigAnalysis)
        site bf_vlans.

(** [import_devices_from_cmds], lines 294-307, for one device: a collected
    VLAN is added only when its id is not yet a key of [site.vlans]. *)
Definition import_vlans_cli (site : NetworkImporterSite)
    (data_vlans : list CliVlan) : NetworkImporterSite :=
  foldl (λ s vlan,
           if bool_decide (vlan_id vlan ∉ dom (vlans s)) then
             add_vlan2
               (add_vlan s (vlan_id vlan) (cli_name vlan) CliCollection)
               (cli_name vlan) (vlan_id vlan)
           else s)
        site data_vlans.

End Registry.

(** The Vlan entities of a site that carry the id [x]. *)
Definition vlans_with_vid (site : NetworkImporterSite) (x : Z) : gmap Z Vlan :=
  filter (λ kv, vid kv.2 = x) (vlans site).

(** Every entity is filed under its own id. *)
Definition registry_wf (site : NetworkImporterSite) : Prop :=
  ∀ k v, vlans site !! k = Some v → vid v = k.

(** ** More Python string functions *)

Module PyStr.

(** [c in s] for a string [c] of one character. *)
Fixpoint contains (c : ascii) (s : string) : bool :=
  match s with
  | EmptyString => false
  | String a s' => Ascii.eqb a c || contains c s'
  end.

(** [s.split(sep)] for a separator of one character: never empty, one
    more piece than there are separators. *)
Fixpoint split (sep : ascii) (s : string) : list string :=
  match s with
  | EmptyString => [EmptyString]
  | String a s' =>
      if Ascii.eqb a sep then EmptyString :: split sep s'
      else
        match split sep s' with
        | w :: ws => String a w :: ws
        | [] => [String a EmptyString]
        end
  end.

(** [s.split(sep, 1)]: cut at the first separator only. *)
Fixpoint split_once (sep : ascii) (s : string) : list string :=
  match s with
  | EmptyString => [EmptyString]
  | String a s' =>
      if Ascii.eqb a sep then [EmptyString; s']
      else
        match split_once sep s' with
        | w :: ws => String a w :: ws
        | [] => [String a EmptyString]
        end
  end.

End PyStr.

(** ** The inventory filters of [build_inventory] *)

(** Lines 97-102 and 110-114: the items of a comma-separated list go into
    [params]; an item without [=] is passed over.  [None]: the unpacking
    [key, value = ...] raised. *)
Definition add_params (params : gmap string string) (csparams : list string)
  : option (gmap string string) :=
  foldl (λ acc csp,
           params ← acc;
           if negb (PyStr.contains "=" csp) then Some params
           else
             match PyStr.split_once "=" csp with
             | [key; value] => Some (<[key := value]> params)
             | _ => None
             end)
        (Some params) csparams.

(** Lines 88-114: [params], from [config.main["inventory_filter"]] when that
    key is there and from the [limit] argument when it is given and not
    empty. *)
Definition filter_parameters (inventory_filter limit : option string)
  : option (gmap string string) :=
  params ←
    match inventory_filter with
    | Some f => add_params ∅ (PyStr.split "," f)
    | None => Some ∅
    end;
  match limit with
  | None => Some params
  | Some l =>
      if bool_decide (l = EmptyString) then Some params
      else if negb (PyStr.contains "=" l) then Some (<["name" := l]> params)
      else add_params params (PyStr.split "," l)
  end.

(** What [build_inventory] asks of [InitNornir]: the inventory plugin and
    its options. *)
Inductive InventoryPlugin :=
| NBInventory (filter_parameters : gmap string string)
| NornirInventoryFromBatfish.

(** How a method that may stop the process ends. *)
Inductive Ends (A : Type) :=
| Returns (a : A)
| Raises
| Exits (status : Z).
Global Arguments Returns {A} a.
Global Arguments Raises {A}.
Global Arguments Exits {A} status.

(** Lines 88-153, up to the call of [InitNornir]: the plugin asked for, or
    [sys.exit(1)] when [config.main["inventory_source"]] names no supported
    source. *)
Definition build_inventory (inventory_filter : option string)
    (inventory_source : string) (has_configs_directory : bool)
    (limit : option string) : Ends InventoryPlugin :=
  match filter_parameters inventory_filter limit with
  | None => Raises
  | Some params =>
      if bool_decide (inventory_source = "netbox") then
        Returns (NBInventory params)
      else if bool_decide (inventory_source = "configs")
              && has_configs_directory then
        Returns NornirInventoryFromBatfish
      else Exits 1
  end.

(** An item [key=value] as the filters are written. *)
Definition filter_item (kv : string * string) : string :=
  kv.1 +:+ "=" +:+ kv.2.

(** A pair that can be written as one item of a comma-separated list. *)
Definition filter_pair_ok (kv : string * string) : Prop :=
  PyStr.contains "=" kv.1 = false ∧ PyStr.contains "," kv.1 = false
  ∧ PyStr.contains "," kv.2 = false.

(** ** The network name of [init_bf_session] *)

(** Lines 421-422: [NETWORK_NAME], from [os.getcwd()].  [None]: the index
    [-1] raised. *)
Definition network_name (cwd : string) : option string :=
  CURRENT_DIRECTORY ← last (PyStr.split "/" cwd);
  Some ("network-importer-" +:+ CURRENT_DIRECTORY).

(** ** The sites of [init] and the VLAN imports across devices *)

(** Modelled from the spec: what [init] and the two import methods read and
    write on a device object ([data["obj"]]; [model.py] is not among the
    sources).  [dev_remote_site_slug] is [dev.remote.site.slug], [None] when
    there is no remote record to read it from.  [dev_site] is [dev.site]: a
    reference to a site object of [self.sites], held as the key of that
    site; [None] when it was never set. *)
Record DeviceObj := {
  dev_exist_remote : bool;
  dev_remote_site_slug : option string;
  dev_site : option string;
}.

(** [self.sites]; and [self.devs.inventory.hosts], a dictionary in the order
    of insertion. *)
Abbreviation Sites := (gmap string NetworkImporterSite).
Abbreviation InventoryHosts := (list (string * DeviceObj)).

Definition set_site (dev : DeviceObj) (k : string) : DeviceObj :=
  {| dev_exist_remote := dev_exist_remote dev;
     dev_remote_site_slug := dev_remote_site_slug dev;
     dev_site := Some k |}.

(** [self.devs.inventory.hosts[dev_name]["obj"]]. *)
Definition host_obj (hosts : InventoryHosts) (dev_name : string)
  : option DeviceObj :=
  (list_to_map hosts : gmap string DeviceObj) !! dev_name.

(** The outcome of the VLAN collection on one device: [items[0].failed],
    and [data["vlans"].values()] when [data] has the key [vlans]. *)
Record VlanTask := {
  failed : bool;
  data_vlans : option (list CliVlan);
}.

(** The two warnings of the VLAN part of [import_devices_from_cmds]. *)
Inductive CmdWarning :=
| WarnVlanTaskFailed (dev_name : string)
| WarnNoVlans (dev_name : string).


Section SitesAndVlans.

(** Modelled from the spec: a site is created on first reference, under its
    name.  The registry a new site starts with (the constructor is given
    the NetBox handle) is left open. *)
Variable initial_vlans : string → gmap Z Vlan.

Variable authoritative : Source → bool.
Variable add_vlan2 : NetworkImporterSite → string → Z → NetworkImporterSite.

Definition new_site (site_slug : string) : NetworkImporterSite :=
  {| site_name := site_slug; vlans := initial_vlans site_slug |}.

(** Lines 208-223 for one device.  [None]: reading the slug raised. *)
Definition init_site (sites : Sites) (dev : DeviceObj)
  : option (Sites * DeviceObj) :=
  if negb (dev_exist_remote dev) then Some (sites, dev)
  else
    match dev_remote_site_slug dev with
    | None => None
    | Some site_slug =>
        if bool_decide (site_slug ∉ dom sites) then
          let site := new_site site_slug in
          Some (<[site_name site := site]> sites, set_site dev (site_name site))
        else Some (sites, set_site dev site_slug)
    end.

(** Lines 208-223: the loop over the hosts. *)
Fixpoint init_sites (sites : Sites) (hosts : InventoryHosts)
  : option (Sites * InventoryHosts) :=
  match hosts with
  | [] => Some (sites, [])
  | (dev_name, dev) :: rest =>
      '(sites', dev') ← init_site sites dev;
      '(sites'', rest') ← init_sites sites' rest;
      Some (sites'', (dev_name, dev') :: rest')
  end.

(** Lines 252-260 for one device and the VLAN ids the analysis reports for
    it: [dev.site.add_vlan] for each of them.  [None]: [dev.site] is not
    set, so the attribute read raised.  The interface part of the method
    (lines 240-250) does not touch the sites. *)
Definition config_vlans_of_device (import_vlans : string) (sites : Sites)
    (dev : DeviceObj) (bf_vlans : list Z) : option Sites :=
  if bool_decide (import_vlans = "config") then
    match bf_vlans with
    | [] => Some sites
    | _ :: _ =>
        match dev_site dev with
        | None => None
        | Some k =>
            Some (alter (λ site, import_vlans_config authoritative site bf_vlans)
                        k sites)
        end
    end
  else Some sites.

(** [import_devices_from_configs], its effect on the sites. *)
Fixpoint import_vlans_from_configs (import_vlans : string) (sites : Sites)
    (devs : list (DeviceObj * list Z)) : option Sites :=
  match devs with
  | [] => Some sites
  | (dev, bf_vlans) :: rest =>
      sites' ← config_vlans_of_device import_vlans sites dev bf_vlans;
      import_vlans_from_configs import_vlans sites' rest
  end.

(** Lines 281-307 for one entry of [results].  [None]: the host or its
    site could not be read. *)
Definition cli_vlans_of_result (hosts : InventoryHosts) (sites : Sites)
    (dev_name : string) (task : VlanTask)
  : option (Sites * list CmdWarning) :=
  if failed task then Some (sites, [WarnVlanTaskFailed dev_name])
  else
    match data_vlans task with
    | None => Some (sites, [WarnNoVlans dev_name])
    | Some [] => Some (sites, [])
    | Some (vlan :: more) =>
        dev ← host_obj hosts dev_name;
        k ← dev_site dev;
        Some (alter (λ site,
                       import_vlans_cli authoritative add_vlan2 site
                         (vlan :: more)) k sites, [])
    end.

(** Lines 276-307: the VLAN part of [import_devices_from_cmds]. *)
Fixpoint cli_vlans_of_results (hosts : InventoryHosts) (sites : Sites)
    (results : list (string * VlanTask)) : option (Sites * list CmdWarning) :=
  match results with
  | [] => Some (sites, [])
  | (dev_name, task) :: rest =>
      '(sites', ws) ← cli_vlans_of_result hosts sites dev_name task;
      '(sites'', ws') ← cli_vlans_of_results hosts sites' rest;
      Some (sites'', ws ++ ws')
  end.

Definition import_vlans_from_cmds (import_vlans : string)
    (hosts : InventoryHosts) (sites : Sites)
    (results : list (string * VlanTask)) : option (Sites * list CmdWarning) :=
  if bool_decide (import_vlans = "cli") then
    cli_vlans_of_results hosts sites results
  else Some (sites, []).

End SitesAndVlans.

(** ** Scenarios *)

Definition an_interface (virtual : bool) (remote_id : Z) (connected : bool)
    (far_end : option (string * string)) : NetworkImporterInterface :=
  {| is_virtual := virtual;
     remote := Some {| id := remote_id; connection_status := connected;
                       connected_endpoint :=
                         (λ p, {| device_name := p.1; name := p.2 |})
                           <$> far_end |} |}.

Definition a_device (l : list (string * NetworkImporterInterface))
  : NetworkImporterDevice :=
  {| interfaces := list_to_map l |}.

(** Two switches, one free physical port each. *)
Definition two_switches : Hosts :=
  list_to_map
    [("sw1", a_device [("Gi0/1", an_interface false 11 false None)]);
     ("sw2", a_device [("Gi0/1", an_interface false 21 false None)])].

(** The same switches once the cable between the two ports is recorded. *)
Definition cabled_switches : Hosts :=
  list_to_map
    [("sw1", a_device [("Gi0/1",
        an_interface false 11 true (Some ("sw2", "Gi0/1")))]);
     ("sw2", a_device [("Gi0/1",
        an_interface false 21 true (Some ("sw1", "Gi0/1")))])].

(** [sw1] records [sw2:Gi0/1] as its far end, [sw2] records [sw3:Gi0/2]. *)
Definition miscabled_switches : Hosts :=
  list_to_map
    [("sw1", a_device [("Gi0/1",
        an_interface false 11 true (Some ("sw2", "Gi0/1")))]);
     ("sw2", a_device [("Gi0/1",
        an_interface false 21 true (Some ("sw3", "Gi0/2")))])].

(** [sw1] alone, its port recorded as cabled to [sw3]. *)
Definition lone_switch : Hosts :=
  list_to_map
    [("sw1", a_device [("Gi0/1",
        an_interface false 11 true (Some ("sw3", "Gi0/2")))])].

(** A system of record that accepts every cable and keeps them. *)
Definition accepting (cables : list (Z * Z)) (a b : Z)
  : list (Z * Z) * bool :=
  ((a, b) :: cables, true).

(** A system of record whose first request fails (a timeout, say) and
    whose later requests succeed; the state counts the requests. *)
Definition first_fails (requests : nat) (a b : Z) : nat * bool :=
  (S requests, negb (Nat.eqb requests 0)).

(** One link reported once from each end, on two subinterfaces. *)
Definition both_ways : list Link :=
  [mk_link "sw1" "Gi0/1.100" "sw2" "Gi0/1";
   mk_link "sw2" "Gi0/1" "sw1" "Gi0/1.200"].

(** A row without interface objects, then a proper one. *)
Definition bad_then_good : list Link :=
  [{| Interface := None; Remote_Interface := None |};
   mk_link "sw1" "Gi0/1" "sw2" "Gi0/1"].

(** The site [dc1] before any VLAN is known, a design choice where the
    live collection names VLANs, and a stand-in for [add_vlan2]. *)
Definition dc1 : NetworkImporterSite := {| site_name := "dc1"; vlans := ∅ |}.

Definition cli_names (source : Source) : bool :=
  match source with CliCollection => true | ConfigAnalysis => false end.

Definition add_vlan2_ignored (site : NetworkImporterSite) (name0 : string)
    (vid0 : Z) : NetworkImporterSite := site.

(** Two hosts whose links collide on the key with a link of other hosts:
    [a:x] with [b_c:y], against [a:x_b] with [c:y]. *)
Definition underscore_hosts : Hosts :=
  list_to_map
    [("a", a_device [("x", an_interface false 1 false None)]);
     ("b_c", a_device [("y", an_interface false 2 false None)])].

(** One switch with a free port towards each of two neighbours' free
    ports; both links are observed on the same local port. *)
Definition three_switches : Hosts :=
  <["sw3" := a_device [("Gi0/1", an_interface false 31 false None)]]>
    two_switches.

(** Three devices as [init] finds them: two of the site [dc1] and one that
    does not exist remotely; and a start where no site is registered and
    new sites have no VLAN yet. *)
Definition fresh_hosts : InventoryHosts :=
  [("sw1", {| dev_exist_remote := true; dev_remote_site_slug := Some "dc1";
              dev_site := None |});
   ("sw2", {| dev_exist_remote := false; dev_remote_site_slug := None;
              dev_site := None |});
   ("sw3", {| dev_exist_remote := true; dev_remote_site_slug := Some "dc1";
              dev_site := None |})].

Definition no_vlans (site_slug : string) : gmap Z Vlan := ∅.

(** What [init] makes of them. *)
Definition dc1_only : Sites := {["dc1" := new_site no_vlans "dc1"]}.

Definition sited_hosts : InventoryHosts :=
  [("sw1", {| dev_exist_remote := true; dev_remote_site_slug := Some "dc1";
              dev_site := Some "dc1" |});
   ("sw2", {| dev_exist_remote := false; dev_remote_site_slug := None;
              dev_site := None |});
   ("sw3", {| dev_exist_remote := true; dev_remote_site_slug := Some "dc1";
              dev_site := Some "dc1" |})].

(** What the analysis reports for the three devices, and two collections
    that bring nothing: a task that failed and a result without VLANs. *)
Definition reported_vlans : list (DeviceObj * list Z) :=
  [({| dev_exist_remote := true; dev_remote_site_slug := Some "dc1";
       dev_site := Some "dc1" |}, [100; 200]%Z);
   ({| dev_exist_remote := true; dev_remote_site_slug := Some "dc1";
       dev_site := Some "dc1" |}, [200; 300]%Z)].

Definition reported_vlans_unsited : list (DeviceObj * list Z) :=
  [({| dev_exist_remote := false; dev_remote_site_slug := None;
       dev_site := None |}, [100]%Z)].


Definition known_collection : list (string * VlanTask) :=
  [("sw1", {| failed := false;
              data_vlans := Some [{| cli_name := "prod"; vlan_id := 100 |}] |})].

Definition dc1_with_100 : Sites :=
  {["dc1" := add_vlan cli_names (new_site no_vlans "dc1") 100 "vlan-100"
               ConfigAnalysis]}.

(** * Properties *)

(** ** The Python functions *)

Section PyFacts.
Import Py.

(** The pattern at work. *)
Example re_sub_subinterface : re_sub "Gi0/1.100" = "Gi0/1".
Proof. reflexivity. Qed.

Example re_sub_physical : re_sub "Gi0/1" = "Gi0/1".
Proof. reflexivity. Qed.

Example re_sub_once : re_sub "Gi0/1.100.200" = "Gi0/1.100".
Proof. reflexivity. Qed.

Example re_sub_no_digits : re_sub "Gi0/1." = "Gi0/1.".
Proof. reflexivity. Qed.

Example re_sub_not_trailing : re_sub "Gi0/1.10a" = "Gi0/1.10a".
Proof. reflexivity. Qed.

(** [$] also holds in front of a final newline. *)
Example re_sub_final_newline :
  re_sub ("Gi0/1.100" +:+ String "010" EmptyString)
  = "Gi0/1" +:+ String "010" EmptyString.
Proof. reflexivity. Qed.

Example sorted_two : sorted ["sw2:Gi0/1"; "sw1:Gi0/1"] = ["sw1:Gi0/1"; "sw2:Gi0/1"].
Proof. reflexivity. Qed.

Example join_two : join "_" ["sw1:Gi0/1"; "sw2:Gi0/1"] = "sw1:Gi0/1_sw2:Gi0/1".
Proof. reflexivity. Qed.

Lemma ltb_compare (x y : string) :
  String.ltb x y = match String.compare x y with Lt => true | _ => false end.
Proof. reflexivity. Qed.

Lemma ltb_asym (x y : string) : String.ltb x y = true → String.ltb y x = false.
Proof.
  rewrite !ltb_compare, (String.compare_antisym x y).
  by destruct (String.compare y x).
Qed.

Lemma ltb_neither (x y : string) :
  String.ltb x y = false → String.ltb y x = false → x = y.
Proof.
  rewrite !ltb_compare, (String.compare_antisym x y).
  destruct (String.compare y x) eqn:E; try done.
  intros _ _. symmetry. by apply String.compare_eq_iff.
Qed.

Lemma sorted_pair (x y : string) :
  sorted [x; y] = if String.ltb y x then [y; x] else [x; y].
Proof. reflexivity. Qed.

Lemma sorted_pair_comm (x y : string) : sorted [x; y] = sorted [y; x].
Proof.
  rewrite !sorted_pair.
  destruct (String.ltb y x) eqn:Hyx, (String.ltb x y) eqn:Hxy; try done.
  - by rewrite (ltb_asym _ _ Hyx) in Hxy.
  - by rewrite (ltb_neither _ _ Hxy Hyx).
Qed.

Lemma skip_digits_all (ds : string) :
  all_digits ds = true → skip_digits ds = EmptyString.
Proof.
  induction ds as [|c ds IH]; [done|].
  simpl. destruct ds as [|c' ds'].
  - by intros ->.
  - intros [-> H]%andb_true_iff. by apply IH.
Qed.

(** After a digit run that is followed by a dot, [$] cannot hold: at least
    the dot and one more character remain. *)
Lemma skip_digits_dot (r tail : string) (c : ascii) :
  at_dollar (skip_digits (r +:+ "." +:+ String c tail)) = false.
Proof.
  induction r as [|a r IH]; [done|].
  simpl. destruct (is_digit a); [done|].
  by destruct r.
Qed.

Lemma match_here_digits (ds : string) :
  all_digits ds = true → match_here ("." +:+ ds) = Some EmptyString.
Proof.
  intros H. destruct ds as [|d r]; [done|].
  assert (is_digit d = true ∧ skip_digits r = EmptyString) as [Hd Hr].
  { simpl in H. destruct r; [done|].
    apply andb_true_iff in H as [? ?]. split; [done|].
    by apply skip_digits_all. }
  simpl. by rewrite Hd, Hr.
Qed.

Lemma match_here_inside (b ds : string) (a : ascii) :
  all_digits ds = true → match_here (String a b +:+ "." +:+ ds) = None.
Proof.
  intros H. destruct ds as [|d tail]; [done|].
  destruct b as [|d' r]; simpl.
  - by rewrite andb_false_r.
  - destruct (Ascii.eqb a "." && is_digit d'); [|done].
    by rewrite skip_digits_dot.
Qed.

Lemma re_sub_eq (s : string) :
  re_sub s =
  match match_here s with
  | Some rest => rest
  | None =>
      match s with
      | EmptyString => EmptyString
      | String c s' => String c (re_sub s')
      end
  end.
Proof. by destruct s. Qed.

(** The substitution removes a trailing [.<digits>] and nothing else. *)
Lemma re_sub_suffix (base ds : string) :
  all_digits ds = true → re_sub (base +:+ "." +:+ ds) = base.
Proof.
  intros H. induction base as [|a b IH].
  - rewrite re_sub_eq.
    change (EmptyString +:+ "." +:+ ds) with ("." +:+ ds).
    by rewrite (match_here_digits _ H).
  - rewrite re_sub_eq, (match_here_inside b ds a H).
    cbn [String.append]. f_equal. exact IH.
Qed.

(** What is left after a match holds no further match. *)
Lemma match_here_after (s rest : string) :
  match_here s = Some rest → re_sub rest = rest.
Proof.
  unfold match_here. destruct s as [|dot [|d r]]; try done.
  destruct (_ && _); [|done].
  destruct (skip_digits r) as [|c [|c' t]] eqn:E; simpl; try done.
  - by intros [= <-].
  - destruct (Ascii.eqb c "010") eqn:Hc; [|done].
    intros [= <-]. apply Ascii.eqb_eq in Hc as ->. done.
Qed.

End PyFacts.

Section StripRefinement.
Import Py.

Lemma skip_digits_empty (r : string) :
  skip_digits r = EmptyString → r = EmptyString ∨ all_digits r = true.
Proof.
  induction r as [|c r IH]; [by left|].
  simpl. destruct (is_digit c) eqn:Hc; [|done].
  intros H. right. destruct (IH H) as [->| Hr]; [done|].
  destruct r; [done|]. by rewrite Hr.
Qed.

Lemma skip_digits_suffix (r : string) :
  no_final_newline r = true → no_final_newline (skip_digits r) = true.
Proof.
  induction r as [|c r IH]; [done|].
  intros H. simpl. destruct (is_digit c); [|done].
  apply IH. destruct r; [done|]. exact H.
Qed.

(** On names without a final newline the pattern matches exactly at a
    trailing [.<digits>]. *)
Lemma match_here_spec (s : string) :
  no_final_newline s = true →
  match_here s =
  match s with
  | String c s' =>
      if Ascii.eqb c "."%char && all_digits s' then Some EmptyString else None
  | EmptyString => None
  end.
Proof.
  intros Hn. destruct s as [|c [|d r]]; [done| |].
  - simpl. by rewrite andb_false_r.
  - assert (no_final_newline (skip_digits r) = true) as Hs.
    { apply skip_digits_suffix. destruct r; [done|]. exact Hn. }
    unfold match_here.
    destruct (Ascii.eqb c "."); simpl; [|done].
    destruct (is_digit d) eqn:Hd; simpl.
    + destruct r as [|e r']; [done|].
      destruct (all_digits (String e r')) eqn:Ha.
      * by rewrite (skip_digits_all _ Ha).
      * destruct (skip_digits (String e r')) as [|x [|y t]] eqn:E; simpl.
        -- apply skip_digits_empty in E as [?|E]; [done|congruence].
        -- simpl in Hs. by destruct (Ascii.eqb x "010").
        -- done.
    + by destruct r.
Qed.

(** The pattern of the code and the wording of the document agree on every
    name that does not end with a newline.  (With a final newline the
    pattern's [$] still matches in front of it.) *)
Lemma re_sub_strip_subinterface (s : string) :
  no_final_newline s = true → re_sub s = strip_subinterface s.
Proof.
  induction s as [|c s IH]; [done|].
  intros Hn. rewrite re_sub_eq, (match_here_spec _ Hn).
  simpl. destruct (Ascii.eqb c "." && all_digits s) eqn:E; [done|].
  f_equal. apply IH.
  destruct s as [|c' s']; [done|]. exact Hn.
Qed.

End StripRefinement.

(** ** The canonical key *)

Lemma unique_id_comm (hA iA hB iB : string) :
  unique_id hA iA hB iB = unique_id hB iB hA iA.
Proof. unfold unique_id. by rewrite sorted_pair_comm. Qed.

Lemma key_swap (n : Names) : key (swap n) = key n.
Proof. unfold key, swap. simpl. apply unique_id_comm. Qed.

Lemma names_reversed (link : Link) :
  names (reversed link) = swap <$> names link.
Proof.
  unfold names, reversed. simpl.
  by destruct (Interface link), (Remote_Interface link).
Qed.

(** C3 (canonical link key).  The key of an observation is made of the two
    strings [host:interface], each interface name with its trailing
    [.<digits>] removed, the smaller string first and [_] between them.
    Hence the observation (A,B) and the observation (B,A) have the same
    key, and so have two observations that differ in the subinterface
    number of one port. *)
Theorem canonical_link_key (hA iA hB iB base ds1 ds2 : string) :
  all_digits ds1 = true → all_digits ds2 = true →
  let a := hA +:+ ":" +:+ Py.re_sub iA in
  let b := hB +:+ ":" +:+ Py.re_sub iB in
  key <$> names (mk_link hA iA hB iB)
    = Some (if String.ltb b a then b +:+ "_" +:+ a else a +:+ "_" +:+ b) ∧
  Py.re_sub (base +:+ "." +:+ ds1) = base ∧
  key <$> names (mk_link hB iB hA iA) = key <$> names (mk_link hA iA hB iB) ∧
  key <$> names (mk_link hA (base +:+ "." +:+ ds1) hB iB)
    = key <$> names (mk_link hA (base +:+ "." +:+ ds2) hB iB).
Proof.
  intros H1 H2 a b. repeat split.
  - unfold names, key, unique_id. simpl. rewrite sorted_pair.
    fold a b. by destruct (String.ltb b a).
  - by apply re_sub_suffix.
  - unfold names, key. simpl. f_equal. apply unique_id_comm.
  - unfold names, key. simpl.
    by rewrite !re_sub_suffix.
Qed.

Lemma canonical_link_key_witness :
  key <$> names (mk_link "sw1" "Gi0/1.100" "sw2" "Gi0/1")
    = Some "sw1:Gi0/1_sw2:Gi0/1" ∧
  Py.re_sub "Gi0/1.100" = "Gi0/1" ∧
  key <$> names (mk_link "sw2" "Gi0/1" "sw1" "Gi0/1.100")
    = Some "sw1:Gi0/1_sw2:Gi0/1" ∧
  key <$> names (mk_link "sw1" "Gi0/1.200" "sw2" "Gi0/1")
    = Some "sw1:Gi0/1_sw2:Gi0/1".
Proof.
  destruct (canonical_link_key "sw1" "Gi0/1.100" "sw2" "Gi0/1"
              "Gi0/1" "100" "200" eq_refl eq_refl) as (K & S & R & C).
  split; [exact K|]. split; [exact S|].
  split; [exact (eq_trans R K)|].
  exact (eq_trans (eq_sym C) K).
Defined.

(** ** The cabling pass *)

Section CablingFacts.

Context {NetBox : Type}.
Variable cables_create : NetBox → Z → Z → NetBox * bool.

Abbreviation St := (LoopState NetBox).

(** The body of the [try] is the gates followed by step 6. *)
Lemma try_body_gates (st : St) (n : Names) :
  try_body cables_create st n =
  match gates (devs st) (already_connected_links st) n with
  | inl m => skip st m
  | inr (lr, rr) => connect cables_create st n lr rr
  end.
Proof.
  unfold try_body, gates, connect.
  case_bool_decide; [done|].
  repeat (case_match; try done).
Qed.

Lemma gates_skip_diag (hosts : Hosts) (acl : gmap string Z) (n : Names)
    (m : Message) :
  gates hosts acl n = inl m → skip_diag m = true.
Proof.
  unfold gates. case_bool_decide; [by intros [= <-]|].
  repeat (case_match; try by intros [= <-]).
Qed.

(** The gates let exactly those observations through whose key is new and
    whose two ends are known, physical and present remotely. *)
Lemma gates_pass_iff (hosts : Hosts) (acl : gmap string Z) (n : Names)
    (lr rr : RemoteInterface) :
  gates hosts acl n = inr (lr, rr) ↔ eligible hosts acl n lr rr.
Proof.
  unfold eligible, gates, lookup_intf. split.
  - case_bool_decide as Hk; [done|].
    destruct (hosts !! local_host n) as [lo|]; [|done].
    destruct (hosts !! remote_host n) as [ro|]; [|done]. simpl.
    destruct (interfaces lo !! local_intf n) as [li|]; [|done].
    destruct (interfaces ro !! remote_intf n) as [ri|]; [|done].
    destruct (is_virtual li) eqn:?; [done|].
    destruct (is_virtual ri) eqn:?; [done|].
    destruct (remote li) as [lr'|] eqn:?; [|done].
    destruct (remote ri) as [rr'|] eqn:?; [|done].
    intros [= -> ->]. split.
    + by apply eq_None_not_Some.
    + by exists li, ri.
  - intros (Hk & li & ri & Hl & Hr & Hvl & Hvr & Hrl & Hrr).
    rewrite bool_decide_eq_false_2 by (by apply eq_None_not_Some).
    destruct (hosts !! local_host n) as [lo|]; [|done].
    destruct (hosts !! remote_host n) as [ro|]; [|done]. simpl in *.
    by rewrite Hl, Hr, Hvl, Hvr, Hrl, Hrr.
Qed.

(** Inspecting a recorded connection requests nothing and alters nothing;
    it logs at most one conflict, or raises on a null endpoint. *)
Lemma check_connected_inv (st : St) (host intf : string) (r : RemoteInterface)
    (far_host far_intf : string) :
  ∃ evs e, check_connected st host intf r far_host far_intf = (st, evs, e) ∧
    (evs = [] ∨ ∃ m, evs = [Log m] ∧ conflict_diag m = true).
Proof.
  unfold check_connected. destruct (connected_endpoint r) as [ep|].
  - case_bool_decide.
    + eexists _, _. split; [done|]. right. by eexists.
    + destruct (_ && _).
      * eexists _, _. split; [done|]. right. by eexists.
      * eexists _, _. split; [done|]. by left.
  - eexists _, _. split; [done|]. by left.
Qed.

Lemma connect_turn (st : St) (n : Names) (lr rr : RemoteInterface) :
  already_connected_links st !! key n = None →
  ∃ st' evs e, connect cables_create st n lr rr = (st', evs, e) ∧
               turn cables_create st n st' evs e.
Proof.
  intros Hk. unfold connect.
  destruct (connection_status lr).
  { destruct (check_connected_inv st (local_host n) (local_intf n) lr
                (remote_host n) (remote_intf n)) as (evs & e & -> & H).
    eexists _, _, _. split; [done|]. constructor.
    by destruct H as [->|(m & -> & _)]. }
  destruct (connection_status rr).
  { destruct (check_connected_inv st (remote_host n) (remote_intf n) rr
                (local_host n) (local_intf n)) as (evs & e & -> & H).
    eexists _, _, _. split; [done|]. constructor.
    by destruct H as [->|(m & -> & _)]. }
  destruct (cables_create (nb st) (id lr) (id rr)) as [nb' ok] eqn:Hc.
  pose proof (turn_create cables_create st n _ _ _ _ Hk Hc) as T.
  destruct ok; eexists _, _, _; (split; [reflexivity|exact T]).
Qed.

Lemma try_body_turn (st : St) (n : Names) :
  ∃ st' evs e, try_body cables_create st n = (st', evs, e) ∧
               turn cables_create st n st' evs e.
Proof.
  rewrite try_body_gates.
  destruct (gates _ _ n) as [m|[lr rr]] eqn:G.
  - eexists _, _, _. split; [done|]. by constructor.
  - apply gates_pass_iff in G as [Hk _]. by apply connect_turn.
Qed.

(** *** Counting events *)

Lemma count_in_app (p : Event → bool) (l1 l2 : list Event) :
  count_in p (l1 ++ l2) = count_in p l1 + count_in p l2.
Proof. unfold count_in. by rewrite List.filter_app, length_app. Qed.

Lemma count_in_split (evs : list Event) :
  count_in is_request evs = count_in is_created evs + count_in is_failed evs.
Proof.
  unfold count_in. induction evs as [|[m|a b []] evs IH]; simpl; lia.
Qed.

Lemma count_for_split (k : string) (its : list Iteration) :
  count_for is_request k its
  = count_for is_created k its + count_for is_failed k its.
Proof.
  induction its as [|it its IH]; [done|]. simpl.
  case_bool_decide; [rewrite count_in_split|]; lia.
Qed.

Lemma count_in_handler (p : Event → bool) (evs : list Event) (e : Ending)
    (k : string) :
  p (Log (MsgWentWrong k)) = false →
  count_in p (match e with
              | Normal => evs
              | Exception => evs ++ [Log (MsgWentWrong k)]
              end) = count_in p evs.
Proof.
  intros Hp. destruct e; [done|].
  rewrite count_in_app. unfold count_in at 2. simpl. rewrite Hp. simpl. lia.
Qed.

(** *** One turn of the loop *)

Lemma loop_body_names (st : St) (link : Link) (n : Names) :
  names link = Some n →
  ∃ st' evs e,
    try_body cables_create st n = (st', evs, e) ∧
    turn cables_create st n st' evs e ∧
    loop_body cables_create st link =
      Some (st', {| it_key := key n;
                    it_events := match e with
                                 | Normal => evs
                                 | Exception => evs ++ [Log (MsgWentWrong (key n))]
                                 end |}).
Proof.
  intros Hn. destruct (try_body_turn st n) as (st' & evs & e & Hb & T).
  exists st', evs, e. split; [done|]. split; [done|].
  unfold loop_body. by rewrite Hn, Hb.
Qed.

Lemma loop_body_malformed (st : St) (link : Link) :
  names link = None → loop_body cables_create st link = None.
Proof. intros Hn. unfold loop_body. by rewrite Hn. Qed.

Lemma turn_devs (st st' : St) (n : Names) (evs : list Event) (e : Ending) :
  turn cables_create st n st' evs e → devs st' = devs st.
Proof. by destruct 1. Qed.

(** *** The whole loop *)

Lemma for_links_devs (links : list Link) (st : St) :
  devs (for_links cables_create st links).1.1 = devs st.
Proof.
  revert st. induction links as [|link links IH]; intros st; [done|].
  simpl. destruct (names link) as [n|] eqn:Hn.
  - destruct (loop_body_names st link n Hn) as (st' & evs & e & _ & T & ->).
    specialize (IH st').
    destruct (for_links cables_create st' links) as [[st'' its] r].
    simpl in *. rewrite IH. by eapply turn_devs.
  - by rewrite loop_body_malformed.
Qed.

(** A key once recorded stays recorded and is never requested again; a
    key is recorded at the end exactly when it was recorded at the start or
    a request for it returned. *)
Lemma for_links_keys (links : list Link) (st : St) (k : string) :
  let r := for_links cables_create st links in
  (is_Some (already_connected_links st !! k) →
     count_for is_request k r.1.2 = 0) ∧
  count_for is_created k r.1.2 ≤ 1 ∧
  (is_Some (already_connected_links r.1.1 !! k) ↔
     is_Some (already_connected_links st !! k)
     ∨ 0 < count_for is_created k r.1.2).
Proof.
  revert st. induction links as [|link links IH]; intros st; simpl.
  { split; [done|]. split; [lia|]. split; [by left|]. intros [?|?]; [done|lia]. }
  destruct (names link) as [n|] eqn:Hn; cycle 1.
  { rewrite loop_body_malformed by done. simpl.
    split; [done|]. split; [lia|]. split; [by left|]. intros [?|?]; [done|lia]. }
  destruct (loop_body_names st link n Hn) as (st' & evs & e & _ & T & ->).
  destruct (IH st') as (IH1 & IH2 & IH3). clear IH.
  destruct (for_links cables_create st' links) as [[st'' its] r].
  simpl in *.
  assert (∀ p, p (Log (MsgWentWrong (key n))) = false →
     count_in p (match e with
                 | Normal => evs
                 | Exception => evs ++ [Log (MsgWentWrong (key n))]
                 end) = count_in p evs) as Hh
    by (intros; by apply count_in_handler).
  rewrite !Hh by done. clear Hh.
  destruct T as [evs e Hq | a b nb' ok Hk Hc].
  - assert (count_in is_created evs = 0) as Hcr
      by (pose proof (count_in_split evs); lia).
    rewrite Hq, Hcr.
    split; [|split].
    + intros Hs. rewrite (IH1 Hs). by case_bool_decide.
    + by case_bool_decide.
    + rewrite IH3. by case_bool_decide.
  - simpl in *. case_bool_decide as Hkey.
    + subst k. destruct ok; simpl in *.
      * assert (count_for is_request (key n) its = 0) as Hz
          by (apply IH1; rewrite lookup_insert_eq; by eexists).
        assert (count_for is_created (key n) its = 0) as Hz'
          by (pose proof (count_for_split (key n) its); lia).
        rewrite Hz'. unfold count_in. simpl.
        split; [rewrite Hk; by intros [? ?]|]. split; [lia|].
        split; [intros _; right; lia|].
        intros _. apply IH3. left. rewrite lookup_insert_eq. by eexists.
      * unfold count_in. simpl.
        split; [rewrite Hk; by intros [? ?]|]. split; [lia|].
        rewrite IH3. split; (intros [?|?]; [by left|right; lia]).
    + assert (∀ m : gmap string Z,
                (if ok then <[key n:=1%Z]> m else m) !! k = m !! k) as Hl.
      { intros m. destruct ok; [|done]. by rewrite lookup_insert_ne. }
      rewrite Hl in IH1, IH3. simpl. done.
Qed.

(** *** The gates in terms of what is looked up *)

Lemma gates_lookup (hosts : Hosts) (acl : gmap string Z) (n : Names) :
  gates hosts acl n =
  if bool_decide (is_Some (acl !! key n)) then inl (MsgAlreadyConnected (key n))
  else if bool_decide (hosts !! local_host n = None)
  then inl (MsgHostNotPresent (local_host n))
  else if bool_decide (hosts !! remote_host n = None)
  then inl (MsgHostNotPresent (remote_host n))
  else
  match lookup_intf hosts (local_host n) (local_intf n),
        lookup_intf hosts (remote_host n) (remote_intf n) with
  | None, _ => inl (MsgIntfNotPresent (local_host n) (local_intf n))
  | Some _, None => inl (MsgIntfNotPresent (remote_host n) (remote_intf n))
  | Some li, Some ri =>
      if is_virtual li then inl (MsgVirtual (local_host n) (local_intf n))
      else if is_virtual ri then inl (MsgVirtual (remote_host n) (remote_intf n))
      else
      match remote li, remote ri with
      | None, _ => inl (MsgRemoteNotPresent (local_host n) (local_intf n))
      | Some _, None => inl (MsgRemoteNotPresent (remote_host n) (remote_intf n))
      | Some lr, Some rr => inr (lr, rr)
      end
  end.
Proof.
  unfold gates, lookup_intf. case_bool_decide; [done|].
  destruct (hosts !! local_host n) as [lo|]; simpl; [|done].
  destruct (hosts !! remote_host n) as [ro|]; simpl; [|done].
  repeat (case_match; try done).
Qed.

(** Whatever stops at a gate is logged once and changes nothing. *)
Lemma loop_body_stopped (st : St) (link : Link) (n : Names) (m : Message) :
  names link = Some n →
  gates (devs st) (already_connected_links st) n = inl m →
  loop_body cables_create st link =
    Some (st, {| it_key := key n; it_events := [Log m] |}).
Proof.
  intros Hn G. unfold loop_body. by rewrite Hn, try_body_gates, G.
Qed.

Lemma loop_body_passed (st : St) (link : Link) (n : Names)
    (lr rr : RemoteInterface) :
  names link = Some n →
  gates (devs st) (already_connected_links st) n = inr (lr, rr) →
  loop_body cables_create st link =
    let '(st', evs, e) := connect cables_create st n lr rr in
    Some (st', {| it_key := key n;
                  it_events := match e with
                               | Normal => evs
                               | Exception => evs ++ [Log (MsgWentWrong (key n))]
                               end |}).
Proof.
  intros Hn G. unfold loop_body. by rewrite Hn, try_body_gates, G.
Qed.

Lemma eligible_remotes (hosts : Hosts) (acl : gmap string Z) (n : Names)
    (lr rr : RemoteInterface) :
  eligible hosts acl n lr rr →
  lookup_remote hosts (local_host n) (local_intf n) = Some lr ∧
  lookup_remote hosts (remote_host n) (remote_intf n) = Some rr.
Proof.
  intros (_ & li & ri & Hl & Hr & _ & _ & Hrl & Hrr).
  unfold lookup_remote. by rewrite Hl, Hr.
Qed.

(** A link with a connection recorded on either end is never requested:
    the observation leaves the state alone. *)
Lemma loop_body_connected (st : St) (link : Link) :
  link_connected (devs st) link = true →
  ∃ it, loop_body cables_create st link = Some (st, it) ∧
        count_in is_request (it_events it) = 0.
Proof.
  unfold link_connected. destruct (names link) as [n|] eqn:Hn; [|done].
  intros Hc.
  destruct (gates (devs st) (already_connected_links st) n)
    as [m|[lr rr]] eqn:G.
  - rewrite (loop_body_stopped _ _ _ _ Hn G). by eexists.
  - rewrite (loop_body_passed _ _ _ _ _ Hn G).
    apply gates_pass_iff, eligible_remotes in G as [Hl Hr].
    unfold connected_end in Hc. rewrite Hl, Hr in Hc.
    unfold connect.
    destruct (connection_status lr).
    { destruct (check_connected_inv st (local_host n) (local_intf n) lr
                  (remote_host n) (remote_intf n)) as (evs & e & -> & H).
      eexists. split; [done|]. simpl.
      rewrite count_in_handler by done.
      by destruct H as [->|(m & -> & _)]. }
    simpl in Hc. rewrite Hc.
    destruct (check_connected_inv st (remote_host n) (remote_intf n) rr
                (local_host n) (local_intf n)) as (evs & e & -> & H).
    eexists. split; [done|]. simpl.
    rewrite count_in_handler by done.
    by destruct H as [->|(m & -> & _)].
Qed.

Lemma for_links_connected (links : list Link) (st : St) :
  forallb (link_connected (devs st)) links = true →
  all_requests (for_links cables_create st links).1.2 = [].
Proof.
  induction links as [|link links IH]; [done|].
  simpl. intros [Hl Hr]%andb_true_iff.
  destruct (loop_body_connected st link Hl) as (it & -> & Hq).
  specialize (IH Hr).
  destruct (for_links cables_create st links) as [[st'' its] r].
  simpl in *. unfold all_requests in *.
  rewrite fmap_cons, concat_cons, List.filter_app, IH, app_nil_r.
  unfold count_in in Hq. by apply length_zero_iff_nil.
Qed.

(** Past the check of the key the duplicate diagnostic is not logged. *)
Lemma gates_not_duplicate (hosts : Hosts) (acl : gmap string Z) (n : Names)
    (m : Message) (k : string) :
  acl !! key n = None → gates hosts acl n = inl m →
  m ≠ MsgAlreadyConnected k.
Proof.
  intros Hk. unfold gates.
  rewrite bool_decide_eq_false_2 by (by apply eq_None_not_Some).
  repeat (case_match; try by intros [= <-]).
Qed.

(** Step 6 logs no skip diagnostic. *)
Lemma connect_events (st st' : St) (n : Names) (lr rr : RemoteInterface)
    (evs : list Event) (e : Ending) (m : Message) :
  connect cables_create st n lr rr = (st', evs, e) →
  Log m ∈ evs → skip_diag m = false.
Proof.
  unfold connect.
  destruct (connection_status lr).
  { destruct (check_connected_inv st (local_host n) (local_intf n) lr
                (remote_host n) (remote_intf n))
      as (evs' & e' & -> & [->|(m' & -> & Hm)]); intros [= <- <- <-].
    - by intros ?%elem_of_nil.
    - intros [= ->]%list_elem_of_singleton. by destruct m'. }
  destruct (connection_status rr).
  { destruct (check_connected_inv st (remote_host n) (remote_intf n) rr
                (local_host n) (local_intf n))
      as (evs' & e' & -> & [->|(m' & -> & Hm)]); intros [= <- <- <-].
    - by intros ?%elem_of_nil.
    - intros [= ->]%list_elem_of_singleton. by destruct m'. }
  destruct (cables_create _ _ _) as [nb' []]; intros [= <- <- <-];
    rewrite !elem_of_cons; intros [[= ->]|[[=]|?%elem_of_nil]]; done.
Qed.

Lemma try_body_not_duplicate (st st' : St) (n : Names) (evs : list Event)
    (e : Ending) (k : string) :
  already_connected_links st !! key n = None →
  try_body cables_create st n = (st', evs, e) →
  Log (MsgAlreadyConnected k) ∉ evs.
Proof.
  intros Hk. rewrite try_body_gates.
  destruct (gates _ _ n) as [m|[lr rr]] eqn:G.
  - intros [= <- <- <-] [= <-]%list_elem_of_singleton.
    by eapply gates_not_duplicate.
  - intros Hc Hin. by apply (connect_events _ _ _ _ _ _ _ _ Hc) in Hin.
Qed.

End CablingFacts.

(** ** The pass as a whole *)

Lemma import_disabled {NetBox : Type}
    (cables_create : NetBox → Z → Z → NetBox * bool)
    (hosts : Hosts) (netbox : NetBox) (links : list Link) :
  import_cabling_from_configs cables_create false hosts netbox links
  = ({| devs := hosts; already_connected_links := ∅; nb := netbox |},
     [], ReturnFalse).
Proof. reflexivity. Qed.

Lemma import_enabled {NetBox : Type}
    (cables_create : NetBox → Z → Z → NetBox * bool)
    (hosts : Hosts) (netbox : NetBox) (links : list Link) :
  let r := for_links cables_create
             {| devs := hosts; already_connected_links := ∅; nb := netbox |}
             links in
  import_cabling_from_configs cables_create true hosts netbox links
  = (r.1.1, r.1.2, if r.2 then Raised else ReturnNone).
Proof.
  unfold import_cabling_from_configs. simpl.
  by destruct (for_links _ _ _) as [[? ?] ?].
Qed.

(** The loop is left by an exception exactly when some row cannot be
    read. *)
Lemma for_links_raised {NetBox : Type}
    (cables_create : NetBox → Z → Z → NetBox * bool)
    (links : list Link) (st : LoopState NetBox) :
  (for_links cables_create st links).2 = true
  ↔ Exists (λ link, names link = None) links.
Proof.
  revert st. induction links as [|link links IH]; intros st; simpl.
  { split; [done|]. by intros ?%Exists_nil. }
  rewrite Exists_cons. destruct (names link) as [n|] eqn:Hn.
  - destruct (loop_body_names cables_create st link n Hn)
      as (st' & evs & e & _ & _ & ->).
    specialize (IH st').
    destruct (for_links cables_create st' links) as [[st'' its] r].
    simpl in *. rewrite IH. split; [by right|]. by intros [?|?].
  - rewrite loop_body_malformed by done. simpl. split; [by left|done].
Qed.

(** The note of a duplicate is a debug message, not a warning. *)
Lemma duplicate_is_debug (k : string) : level (MsgAlreadyConnected k) = DEBUG.
Proof. reflexivity. Qed.

(** C1 (cabling idempotence), as the code has it.  Take any run of the pass
    and any link A-B.  The observation B-A has the key of A-B; at most one
    creation request for that key returns, and when none of them fails at
    most one is issued at all (a request that raised leaves the key
    unrecorded, so the next observation of the link asks again).  When
    every observed link has a connection recorded on one of its ends, the
    run issues no creation request. *)
Theorem cabling_idempotence {NetBox : Type}
    (cables_create : NetBox → Z → Z → NetBox * bool)
    (import_cabling : bool) (hosts : Hosts) (netbox : NetBox)
    (links : list Link) (hA iA hB iB : string) :
  let its := (import_cabling_from_configs cables_create import_cabling
                hosts netbox links).1.2 in
  let k := unique_id hA (Py.re_sub iA) hB (Py.re_sub iB) in
  unique_id hB (Py.re_sub iB) hA (Py.re_sub iA) = k ∧
  count_for is_created k its ≤ 1 ∧
  (count_for is_failed k its = 0 → count_for is_request k its ≤ 1) ∧
  (forallb (link_connected hosts) links = true → all_requests its = []).
Proof.
  intros its k. split; [apply unique_id_comm|].
  destruct import_cabling.
  - subst its. rewrite import_enabled. simpl.
    set (st := {| devs := hosts; already_connected_links := ∅; nb := netbox |}).
    destruct (for_links_keys cables_create links st k) as (_ & Hc & _).
    split; [exact Hc|]. split.
    + intros Hf.
      pose proof (count_for_split k (for_links cables_create st links).1.2).
      lia.
    + intros Hl. by apply for_links_connected.
  - subst its. rewrite import_disabled. simpl.
    split; [lia|]. split; [lia|done].
Qed.

Lemma cabling_idempotence_witness :
  count_for is_request "sw1:Gi0/1_sw2:Gi0/1"
    (import_cabling_from_configs accepting true two_switches [] both_ways).1.2
    ≤ 1 ∧
  all_requests
    (import_cabling_from_configs accepting true cabled_switches [] both_ways).1.2
    = [].
Proof.
  split.
  - destruct (cabling_idempotence accepting true two_switches [] both_ways
                "sw1" "Gi0/1.100" "sw2" "Gi0/1") as (_ & _ & H & _).
    apply H. vm_compute. reflexivity.
  - destruct (cabling_idempotence accepting true cabled_switches [] both_ways
                "sw1" "Gi0/1.100" "sw2" "Gi0/1") as (_ & _ & _ & H).
    apply H. vm_compute. reflexivity.
Defined.

(** C1 as stated fails when a creation request raises: the key is recorded
    only after the call returned, so the observation from the other end
    issues a second request for the same link. *)
Lemma cabling_idempotence_counterexample :
  count_for is_request "sw1:Gi0/1_sw2:Gi0/1"
    (import_cabling_from_configs first_fails true two_switches 0 both_ways).1.2
  = 2.
Proof. vm_compute. reflexivity. Qed.

(** C7 (frame property of the pass).  Whatever the observations and
    whatever the system of record answers, the inventory the pass ends with
    is the one it started from: every interface has the remote handle it
    had, a recorded [connected_endpoint] included.  What the pass leaves
    behind is its requests and the set of recorded keys, which holds
    exactly the keys of the links whose creation request returned. *)
Theorem cabling_frame {NetBox : Type}
    (cables_create : NetBox → Z → Z → NetBox * bool)
    (import_cabling : bool) (hosts : Hosts) (netbox : NetBox)
    (links : list Link) :
  let r := import_cabling_from_configs cables_create import_cabling
             hosts netbox links in
  devs r.1.1 = hosts ∧
  (∀ host intf,
     lookup_remote (devs r.1.1) host intf = lookup_remote hosts host intf ∧
     (connected_endpoint <$> lookup_remote (devs r.1.1) host intf)
       = (connected_endpoint <$> lookup_remote hosts host intf)) ∧
  (∀ k, is_Some (already_connected_links r.1.1 !! k)
        ↔ 0 < count_for is_created k r.1.2).
Proof.
  intros r.
  assert (devs r.1.1 = hosts) as Hd.
  { subst r. destruct import_cabling; [|done].
    rewrite import_enabled. simpl. by rewrite for_links_devs. }
  split; [exact Hd|]. split.
  - intros host intf. by rewrite Hd.
  - intros k. subst r. destruct import_cabling.
    + rewrite import_enabled. simpl.
      set (st := {| devs := hosts; already_connected_links := ∅;
                    nb := netbox |}).
      destruct (for_links_keys cables_create links st k) as (_ & _ & ->).
      simpl. rewrite lookup_empty. split; [intros [[? ?]|?]; done|by right].
    + rewrite import_disabled. simpl. rewrite lookup_empty.
      split; [by intros [? ?]|lia].
Qed.

(** C9 (fault isolation), as the code has it.  The names and the key are
    computed before the [try]: a row whose endpoint cannot be read raises
    there and ends the pass.  Every fault after that point, a recorded
    connection without endpoint or a creation request that raises, is caught
    and logged with the key of the link, and the loop goes on: when every
    row has its two interface objects the pass does not raise and every row
    gets its turn, in order, under its own key. *)
Theorem fault_isolation {NetBox : Type}
    (cables_create : NetBox → Z → Z → NetBox * bool)
    (hosts : Hosts) (netbox : NetBox) (links : list Link) :
  Forall (λ link, is_Some (names link)) links →
  let r := import_cabling_from_configs cables_create true hosts netbox links in
  r.2 = ReturnNone ∧
  Some <$> (it_key <$> r.1.2) = (λ link, key <$> names link) <$> links ∧
  (∀ (st : LoopState NetBox) link n st' evs,
     names link = Some n →
     try_body cables_create st n = (st', evs, Exception) →
     loop_body cables_create st link =
       Some (st', {| it_key := key n;
                     it_events := evs ++ [Log (MsgWentWrong (key n))] |})).
Proof.
  intros Hwf r. subst r. rewrite import_enabled. simpl.
  set (st0 := {| devs := hosts; already_connected_links := ∅; nb := netbox |}).
  clearbody st0.
  assert (let r := for_links cables_create st0 links in
          r.2 = false ∧
          Some <$> (it_key <$> r.1.2) = (λ link, key <$> names link) <$> links)
    as [Hr Hk].
  { revert st0. induction Hwf as [|link links [n Hn] _ IH]; intros st0; [done|].
    simpl.
    destruct (loop_body_names cables_create st0 link n Hn)
      as (st' & evs & e & _ & _ & ->).
    destruct (IH st') as [IH1 IH2].
    destruct (for_links cables_create st' links) as [[st'' its] raised].
    simpl in *. split; [done|].
    rewrite Hn. f_equal. exact IH2. }
  simpl in *. rewrite Hr. split; [done|]. split; [done|].
  intros st link n st' evs Hn Hb. unfold loop_body. by rewrite Hn, Hb.
Qed.

Lemma fault_isolation_witness :
  (import_cabling_from_configs first_fails true two_switches 0 both_ways).2
  = ReturnNone.
Proof.
  refine (proj1 (fault_isolation first_fails two_switches 0 both_ways _)).
  repeat constructor; by eexists.
Defined.

(** C9 as stated fails on a row whose endpoint cannot be read: nothing is
    logged, the pass raises, and the well-formed row behind it, which on
    its own gets a cable requested, is never looked at. *)
Lemma fault_isolation_counterexample :
  import_cabling_from_configs accepting true two_switches [] bad_then_good
  = ({| devs := two_switches; already_connected_links := ∅; nb := [] |},
      [], Raised) ∧
  all_requests
    (import_cabling_from_configs accepting true two_switches []
       (tail bad_then_good)).1.2
  = [CablesCreate 11 21 true].
Proof. split; vm_compute; reflexivity. Qed.

(** ** The scenarios of the design document *)

(** Two free ports and one observation: one cable between the two remote
    ids, and the key recorded. *)
Example scenario_new_link :
  import_cabling_from_configs accepting true two_switches []
    [mk_link "sw1" "Gi0/1" "sw2" "Gi0/1"]
  = ({| devs := two_switches;
        already_connected_links := {["sw1:Gi0/1_sw2:Gi0/1" := 1%Z]};
        nb := [(11, 21)%Z] |},
     [{| it_key := "sw1:Gi0/1_sw2:Gi0/1";
         it_events := [Log (MsgWillCreate "sw1" "Gi0/1" "sw2" "Gi0/1");
                       CablesCreate 11 21 true] |}],
     ReturnNone).
Proof. vm_compute. reflexivity. Qed.

(** The same observation once the cable is recorded: nothing happens. *)
Example scenario_already_connected :
  import_cabling_from_configs accepting true cabled_switches []
    [mk_link "sw1" "Gi0/1" "sw2" "Gi0/1"]
  = ({| devs := cabled_switches; already_connected_links := ∅; nb := [] |},
     [{| it_key := "sw1:Gi0/1_sw2:Gi0/1"; it_events := [] |}],
     ReturnNone).
Proof. vm_compute. reflexivity. Qed.

(** A recorded connection without endpoint raises inside the [try]: the
    fault is logged under the key and the next observation is handled. *)
Example scenario_fault_caught :
  (import_cabling_from_configs accepting true
     (<["sw3" := a_device [("Gi0/9", an_interface false 31 true None)]]>
        two_switches) []
     [mk_link "sw3" "Gi0/9" "sw1" "Gi0/1";
      mk_link "sw1" "Gi0/1" "sw2" "Gi0/1"]).1.2
  = [{| it_key := "sw1:Gi0/1_sw3:Gi0/9";
        it_events := [Log (MsgWentWrong "sw1:Gi0/1_sw3:Gi0/9")] |};
     {| it_key := "sw1:Gi0/1_sw2:Gi0/1";
        it_events := [Log (MsgWillCreate "sw1" "Gi0/1" "sw2" "Gi0/1");
                      CablesCreate 11 21 true] |}].
Proof. vm_compute. reflexivity. Qed.

(** ** Single observations *)

(** C4 (virtual exclusion).  An observation one of whose ends is a virtual
    interface is skipped: the turn logs one diagnostic, that of the key
    already recorded, of an unknown host or interface, or of the virtual
    interface, all of which precede the first look at a remote handle; it
    requests no cable and leaves the state as it was. *)
Theorem virtual_exclusion {NetBox : Type}
    (cables_create : NetBox → Z → Z → NetBox * bool)
    (st : LoopState NetBox) (link : Link) (n : Names) :
  names link = Some n →
  virtual_end (devs st) (local_host n) (local_intf n) = true
  ∨ virtual_end (devs st) (remote_host n) (remote_intf n) = true →
  ∃ m, loop_body cables_create st link
         = Some (st, {| it_key := key n; it_events := [Log m] |}) ∧
       early_skip_diag m = true ∧
       count_in is_request [Log m] = 0.
Proof.
  intros Hn Hv.
  destruct (gates (devs st) (already_connected_links st) n)
    as [m|[lr rr]] eqn:G.
  - exists m. split; [by apply loop_body_stopped|]. split; [|done].
    rewrite gates_lookup in G. unfold virtual_end in Hv.
    repeat (case_bool_decide; [by injection G as <-|]).
    destruct (lookup_intf _ (local_host n) _) as [li|];
      [|by injection G as <-].
    destruct (lookup_intf _ (remote_host n) _) as [ri|];
      [|by injection G as <-].
    destruct (is_virtual li); [by injection G as <-|].
    destruct (is_virtual ri); [by injection G as <-|].
    by destruct Hv.
  - apply gates_pass_iff in G
      as (_ & li & ri & Hl & Hr & Hvl & Hvr & _).
    unfold virtual_end in Hv. rewrite Hl, Hr, Hvl, Hvr in Hv.
    by destruct Hv.
Qed.

Lemma virtual_exclusion_witness :
  ∃ m, loop_body accepting
         {| devs := <["sw2" := a_device
                        [("Gi0/1", an_interface true 21 false None)]]>
                      two_switches;
            already_connected_links := ∅; nb := [] |}
         (mk_link "sw1" "Gi0/1" "sw2" "Gi0/1.7")
       = Some ({| devs := <["sw2" := a_device
                        [("Gi0/1", an_interface true 21 false None)]]>
                      two_switches;
                  already_connected_links := ∅; nb := [] |},
               {| it_key := "sw1:Gi0/1_sw2:Gi0/1"; it_events := [Log m] |}) ∧
       early_skip_diag m = true ∧ count_in is_request [Log m] = 0.
Proof.
  refine (virtual_exclusion accepting _ (mk_link "sw1" "Gi0/1" "sw2" "Gi0/1.7")
            _ eq_refl _).
  right. vm_compute. reflexivity.
Defined.

(** C6 (validation skips).  An observation with a host that the inventory
    does not hold, an interface that its device does not hold, or an
    interface without remote handle is skipped: the turn logs one of the
    skip diagnostics, requests no cable and leaves the state as it was. *)
Theorem validation_skips {NetBox : Type}
    (cables_create : NetBox → Z → Z → NetBox * bool)
    (st : LoopState NetBox) (link : Link) (n : Names) :
  names link = Some n →
  devs st !! local_host n = None ∨ devs st !! remote_host n = None
  ∨ lookup_intf (devs st) (local_host n) (local_intf n) = None
  ∨ lookup_intf (devs st) (remote_host n) (remote_intf n) = None
  ∨ lookup_remote (devs st) (local_host n) (local_intf n) = None
  ∨ lookup_remote (devs st) (remote_host n) (remote_intf n) = None →
  ∃ m, loop_body cables_create st link
         = Some (st, {| it_key := key n; it_events := [Log m] |}) ∧
       skip_diag m = true ∧
       count_in is_request [Log m] = 0.
Proof.
  intros Hn Hbad.
  destruct (gates (devs st) (already_connected_links st) n)
    as [m|[lr rr]] eqn:G.
  - exists m. split; [by apply loop_body_stopped|].
    split; [by eapply gates_skip_diag|done].
  - apply gates_pass_iff in G as E.
    destruct (eligible_remotes _ _ _ _ _ E) as [Hlr Hrr].
    destruct E as (_ & li & ri & Hl & Hr & _).
    unfold lookup_intf in Hl, Hr.
    destruct Hbad as [H|[H|[H|[H|[H|H]]]]].
    + by rewrite H in Hl.
    + by rewrite H in Hr.
    + unfold lookup_intf in H. by rewrite H in Hl.
    + unfold lookup_intf in H. by rewrite H in Hr.
    + by rewrite H in Hlr.
    + by rewrite H in Hrr.
Qed.

Lemma validation_skips_witness :
  ∃ m, loop_body accepting
         {| devs := lone_switch; already_connected_links := ∅; nb := [] |}
         (mk_link "sw1" "Gi0/1" "sw2" "Gi0/1")
       = Some ({| devs := lone_switch; already_connected_links := ∅;
                  nb := [] |},
               {| it_key := "sw1:Gi0/1_sw2:Gi0/1"; it_events := [Log m] |}) ∧
       skip_diag m = true ∧ count_in is_request [Log m] = 0.
Proof.
  refine (validation_skips accepting _ (mk_link "sw1" "Gi0/1" "sw2" "Gi0/1")
            _ eq_refl _).
  right. left. vm_compute. reflexivity.
Defined.

(** *** Rewriting the connection recorded on one end *)

Lemma set_connection_host (hosts : Hosts) (host intf : string) (cs : bool)
    (ep : option ConnectedEndpoint) (h : string) :
  set_connection hosts host intf cs ep !! h = None ↔ hosts !! h = None.
Proof. unfold set_connection. apply lookup_alter_None. Qed.

Lemma set_connection_other (hosts : Hosts) (host intf : string) (cs : bool)
    (ep : option ConnectedEndpoint) (h i : string) :
  (h, i) ≠ (host, intf) →
  lookup_intf (set_connection hosts host intf cs ep) h i
  = lookup_intf hosts h i.
Proof.
  intros Hne. unfold lookup_intf, set_connection.
  rewrite lookup_alter. case_decide as Hh; [|done]. subst h.
  destruct (hosts !! host) as [d|]; [|done]. simpl.
  rewrite lookup_alter_ne; [done|]. congruence.
Qed.

Lemma set_connection_same (hosts : Hosts) (host intf : string) (cs : bool)
    (ep : option ConnectedEndpoint) :
  lookup_intf (set_connection hosts host intf cs ep) host intf
  = (λ i, {| is_virtual := is_virtual i;
             remote := (λ r, {| id := id r; connection_status := cs;
                                connected_endpoint := ep |}) <$> remote i |})
      <$> lookup_intf hosts host intf.
Proof.
  unfold lookup_intf, set_connection. rewrite lookup_alter_eq.
  destruct (hosts !! host) as [d|]; [|done]. simpl.
  by rewrite lookup_alter_eq.
Qed.

Lemma check_connected_state {NetBox : Type} (st st2 : LoopState NetBox)
    (host intf : string) (r : RemoteInterface) (far_host far_intf : string) :
  check_connected st2 host intf r far_host far_intf
  = (st2, (check_connected st host intf r far_host far_intf).1.2,
          (check_connected st host intf r far_host far_intf).2).
Proof.
  unfold check_connected. destruct (connected_endpoint r); [|done].
  case_bool_decide; [done|]. by destruct (_ && _).
Qed.

(** A conflict found on [host:intf] names that end and the expected far
    end. *)
Lemma check_connected_about {NetBox : Type} (st : LoopState NetBox)
    (host intf : string) (r : RemoteInterface) (far_host far_intf : string)
    (m : Message) :
  Log m ∈ (check_connected st host intf r far_host far_intf).1.2 →
  ∃ reported, m = MsgDifferentDevice host intf reported far_host
              ∨ m = MsgDifferentInterface host intf reported far_intf.
Proof.
  unfold check_connected. destruct (connected_endpoint r) as [ep|]; simpl.
  - case_bool_decide; simpl.
    + intros [= ->]%list_elem_of_singleton. eexists. by left.
    + destruct (_ && _); simpl.
      * intros [= ->]%list_elem_of_singleton. eexists. by right.
      * by intros ?%elem_of_nil.
  - by intros ?%elem_of_nil.
Qed.

(** C10 (one-sided inspection).  When the end A of an observation holds a
    connection in the system of record, the turn does not depend on what is
    recorded for the end B: rewrite B's connection status and far end at
    will, the turn logs the same events and leaves the state as it was.  A
    mismatch recorded at B is thus neither detected nor reported: a
    conflict that the turn logs is one found on A. *)
Theorem one_sided_inspection {NetBox : Type}
    (cables_create : NetBox → Z → Z → NetBox * bool)
    (st : LoopState NetBox) (link : Link) (n : Names)
    (cs : bool) (ep : option ConnectedEndpoint) :
  names link = Some n →
  (local_host n, local_intf n) ≠ (remote_host n, remote_intf n) →
  connected_end (devs st) (local_host n) (local_intf n) = true →
  let st2 :=
    {| devs := set_connection (devs st) (remote_host n) (remote_intf n) cs ep;
       already_connected_links := already_connected_links st;
       nb := nb st |} in
  ∃ evs,
    loop_body cables_create st link
      = Some (st, {| it_key := key n; it_events := evs |}) ∧
    loop_body cables_create st2 link
      = Some (st2, {| it_key := key n; it_events := evs |}) ∧
    count_in is_request evs = 0 ∧
    (∀ m, Log m ∈ evs → conflict_diag m = true →
       ∃ reported,
         m = MsgDifferentDevice (local_host n) (local_intf n) reported
               (remote_host n)
         ∨ m = MsgDifferentInterface (local_host n) (local_intf n) reported
                 (remote_intf n)).
Proof.
  intros Hn Hne Hc st2.
  assert (∀ m' : Message, skip_diag m' = true →
            ∀ m, Log m ∈ [Log m'] → conflict_diag m = true →
              ∃ reported,
                m = MsgDifferentDevice (local_host n) (local_intf n) reported
                      (remote_host n)
                ∨ m = MsgDifferentInterface (local_host n) (local_intf n)
                        reported (remote_intf n)) as Hskip.
  { intros m' Hm' m [= ->]%list_elem_of_singleton Hm. by destruct m'. }
  pose proof (gates_lookup (devs st) (already_connected_links st) n) as G1.
  pose proof (gates_lookup (devs st2) (already_connected_links st2) n) as G2.
  subst st2. simpl in G2.
  rewrite (set_connection_other _ _ _ _ _ _ _ Hne), set_connection_same in G2.
  rewrite !(bool_decide_ext _ _ (set_connection_host _ _ _ _ _ _)) in G2.
  set (st2 := {| devs := set_connection (devs st) (remote_host n)
                           (remote_intf n) cs ep;
                 already_connected_links := already_connected_links st;
                 nb := nb st |}) in *.
  unfold connected_end, lookup_remote in Hc.
  destruct (bool_decide (is_Some (already_connected_links st !! key n))).
  { exists [Log (MsgAlreadyConnected (key n))].
    split; [by apply loop_body_stopped|].
    split; [by apply loop_body_stopped|]. split; [done|by apply Hskip]. }
  destruct (bool_decide (devs st !! local_host n = None)).
  { exists [Log (MsgHostNotPresent (local_host n))].
    split; [by apply loop_body_stopped|].
    split; [by apply loop_body_stopped|]. split; [done|by apply Hskip]. }
  destruct (bool_decide (devs st !! remote_host n = None)).
  { exists [Log (MsgHostNotPresent (remote_host n))].
    split; [by apply loop_body_stopped|].
    split; [by apply loop_body_stopped|]. split; [done|by apply Hskip]. }
  destruct (lookup_intf (devs st) (local_host n) (local_intf n))
    as [li|]; [|done]. simpl in Hc.
  destruct (lookup_intf (devs st) (remote_host n) (remote_intf n))
    as [ri|]; simpl in G2.
  2:{ exists [Log (MsgIntfNotPresent (remote_host n) (remote_intf n))].
      split; [by apply loop_body_stopped|].
      split; [by apply loop_body_stopped|]. split; [done|by apply Hskip]. }
  destruct (is_virtual li).
  { exists [Log (MsgVirtual (local_host n) (local_intf n))].
    split; [by apply loop_body_stopped|].
    split; [by apply loop_body_stopped|]. split; [done|by apply Hskip]. }
  destruct (is_virtual ri).
  { exists [Log (MsgVirtual (remote_host n) (remote_intf n))].
    split; [by apply loop_body_stopped|].
    split; [by apply loop_body_stopped|]. split; [done|by apply Hskip]. }
  destruct (remote li) as [lr|]; [|done]. simpl in Hc.
  destruct (remote ri) as [rr|]; simpl in G2.
  2:{ exists [Log (MsgRemoteNotPresent (remote_host n) (remote_intf n))].
      split; [by apply loop_body_stopped|].
      split; [by apply loop_body_stopped|]. split; [done|by apply Hskip]. }
  rewrite (loop_body_passed _ _ _ _ _ _ Hn G1).
  rewrite (loop_body_passed cables_create st2 link n _ _ Hn G2).
  unfold connect. rewrite Hc.
  rewrite (check_connected_state st st2).
  pose proof (λ m, check_connected_about st (local_host n) (local_intf n) lr
                     (remote_host n) (remote_intf n) m) as Habout.
  destruct (check_connected_inv st (local_host n) (local_intf n) lr
              (remote_host n) (remote_intf n)) as (evs & e & Heq & H).
  rewrite Heq in Habout |- *.
  simpl in *. eexists. split; [done|]. split; [done|]. split.
  - rewrite count_in_handler by done.
    by destruct H as [->|(m & -> & _)].
  - intros m Hin Hm. apply Habout.
    destruct e; [done|].
    apply elem_of_app in Hin as [?|[= ->]%list_elem_of_singleton]; done.
Qed.

Lemma one_sided_inspection_witness :
  ∃ evs,
    loop_body accepting
      {| devs := cabled_switches; already_connected_links := ∅; nb := [] |}
      (mk_link "sw1" "Gi0/1" "sw2" "Gi0/1")
    = Some ({| devs := cabled_switches; already_connected_links := ∅;
               nb := [] |},
            {| it_key := "sw1:Gi0/1_sw2:Gi0/1"; it_events := evs |}) ∧
    loop_body accepting
      {| devs := set_connection cabled_switches "sw2" "Gi0/1" true
                   (Some {| device_name := "sw3"; name := "Gi0/2" |});
         already_connected_links := ∅; nb := [] |}
      (mk_link "sw1" "Gi0/1" "sw2" "Gi0/1")
    = Some ({| devs := set_connection cabled_switches "sw2" "Gi0/1" true
                         (Some {| device_name := "sw3"; name := "Gi0/2" |});
               already_connected_links := ∅; nb := [] |},
            {| it_key := "sw1:Gi0/1_sw2:Gi0/1"; it_events := evs |}).
Proof.
  assert (("sw1", "Gi0/1") ≠ ("sw2", "Gi0/1")) as Hne by (intros [= ?]).
  assert (connected_end cabled_switches "sw1" "Gi0/1" = true) as Hc
    by (vm_compute; reflexivity).
  destruct (one_sided_inspection accepting
              {| devs := cabled_switches; already_connected_links := ∅;
                 nb := [] |}
              (mk_link "sw1" "Gi0/1" "sw2" "Gi0/1") _ true
              (Some {| device_name := "sw3"; name := "Gi0/2" |})
              eq_refl Hne Hc) as (evs & H1 & H2 & _).
  exists evs. split; [exact H1|exact H2].
Defined.

(** C2 (conflict precedence), as the code has it.  Let the end A of an
    observation hold a connection whose recorded far end is on another
    device than the observed B.  The turn requests no cable and leaves the
    state as it was; and when the observation reaches conflict detection
    (its key is new, both ends are known, physical and present remotely) the
    turn logs the device mismatch, and nothing else.  An observation stopped
    at an earlier gate gets the diagnostic of that gate instead. *)
Theorem conflict_precedence {NetBox : Type}
    (cables_create : NetBox → Z → Z → NetBox * bool)
    (st : LoopState NetBox) (link : Link) (n : Names)
    (lr : RemoteInterface) (ep : ConnectedEndpoint) :
  names link = Some n →
  lookup_remote (devs st) (local_host n) (local_intf n) = Some lr →
  connection_status lr = true →
  connected_endpoint lr = Some ep →
  device_name ep ≠ remote_host n →
  (∃ it, loop_body cables_create st link = Some (st, it) ∧
         count_in is_request (it_events it) = 0) ∧
  (∀ rr, eligible (devs st) (already_connected_links st) n lr rr →
     loop_body cables_create st link =
       Some (st, {| it_key := key n;
                    it_events :=
                      [Log (MsgDifferentDevice (local_host n) (local_intf n)
                              (device_name ep) (remote_host n))] |})).
Proof.
  intros Hn Hl Hc He Hd. split.
  - apply loop_body_connected. unfold link_connected, connected_end.
    by rewrite Hn, Hl, Hc.
  - intros rr E. apply gates_pass_iff in E.
    rewrite (loop_body_passed _ _ _ _ _ _ Hn E).
    unfold connect, check_connected. rewrite Hc, He.
    by rewrite bool_decide_eq_true_2.
Qed.

Lemma conflict_precedence_witness :
  loop_body accepting
    {| devs := miscabled_switches; already_connected_links := ∅; nb := [] |}
    (mk_link "sw2" "Gi0/1" "sw1" "Gi0/1")
  = Some ({| devs := miscabled_switches; already_connected_links := ∅;
             nb := [] |},
          {| it_key := "sw1:Gi0/1_sw2:Gi0/1";
             it_events :=
               [Log (MsgDifferentDevice "sw2" "Gi0/1" "sw3" "sw1")] |}).
Proof.
  refine (proj2 (conflict_precedence accepting
            {| devs := miscabled_switches; already_connected_links := ∅;
               nb := [] |}
            (mk_link "sw2" "Gi0/1" "sw1" "Gi0/1") _
            {| id := 21; connection_status := true;
               connected_endpoint :=
                 Some {| device_name := "sw3"; name := "Gi0/2" |} |}
            {| device_name := "sw3"; name := "Gi0/2" |}
            eq_refl _ eq_refl eq_refl _)
          {| id := 11; connection_status := true;
             connected_endpoint :=
               Some {| device_name := "sw2"; name := "Gi0/1" |} |} _).
  - vm_compute. reflexivity.
  - simpl. intros [= ?].
  - split; [vm_compute; reflexivity|].
    eexists _, _. repeat split; vm_compute; reflexivity.
Defined.

(** C2 as stated fails on an observation that an earlier gate stops: [sw1]
    records a far end on [sw3], the observed far end [sw2] is not in the
    inventory, and the turn logs the unknown host, not a conflict. *)
Lemma conflict_precedence_counterexample :
  lookup_remote lone_switch "sw1" "Gi0/1"
  = Some {| id := 11; connection_status := true;
            connected_endpoint :=
              Some {| device_name := "sw3"; name := "Gi0/2" |} |} ∧
  loop_body accepting
    {| devs := lone_switch; already_connected_links := ∅; nb := [] |}
    (mk_link "sw1" "Gi0/1" "sw2" "Gi0/1")
  = Some ({| devs := lone_switch; already_connected_links := ∅; nb := [] |},
          {| it_key := "sw1:Gi0/1_sw2:Gi0/1";
             it_events := [Log (MsgHostNotPresent "sw2")] |}) ∧
  count_in is_conflict [Log (MsgHostNotPresent "sw2")] = 0.
Proof. repeat split; vm_compute; reflexivity. Qed.

(** C5 (exact match), as the code has it.  Let the end A of an observation
    hold a connection whose recorded far end is exactly the observed B.  The
    turn requests no cable, reports no conflict and leaves the state as it
    was: in particular it records no key (only a creation request that
    returned records one).  When the observation reaches conflict
    detection it logs nothing at all.  The observation from the other end
    is therefore not stopped as a duplicate; it goes through the same
    checks, requests no cable either and leaves the state as it was. *)
Theorem exact_match {NetBox : Type}
    (cables_create : NetBox → Z → Z → NetBox * bool)
    (st : LoopState NetBox) (link : Link) (n : Names) (lr : RemoteInterface) :
  names link = Some n →
  lookup_remote (devs st) (local_host n) (local_intf n) = Some lr →
  connection_status lr = true →
  connected_endpoint lr
    = Some {| device_name := remote_host n; name := remote_intf n |} →
  (∃ evs, loop_body cables_create st link
            = Some (st, {| it_key := key n; it_events := evs |}) ∧
          count_in is_request evs = 0 ∧ count_in is_conflict evs = 0 ∧
          (∀ rr, eligible (devs st) (already_connected_links st) n lr rr →
                 evs = [])) ∧
  (∃ evs, loop_body cables_create st (reversed link)
            = Some (st, {| it_key := key n; it_events := evs |}) ∧
          count_in is_request evs = 0 ∧
          (already_connected_links st !! key n = None →
           Log (MsgAlreadyConnected (key n)) ∉ evs)).
Proof.
  intros Hn Hl Hc He. split.
  - destruct (gates (devs st) (already_connected_links st) n)
      as [m|[lr' rr]] eqn:G.
    + exists [Log m]. split; [by apply loop_body_stopped|].
      split; [done|]. split.
      * apply gates_skip_diag in G. by destruct m.
      * intros rr E%gates_pass_iff. congruence.
    + rewrite (loop_body_passed _ _ _ _ _ _ Hn G).
      apply gates_pass_iff, eligible_remotes in G as [Hl' _].
      assert (lr' = lr) as -> by congruence.
      unfold connect, check_connected. rewrite Hc, He. simpl.
      rewrite bool_decide_eq_false_2 by (by intros []).
      rewrite bool_decide_eq_true_2 by done.
      rewrite bool_decide_eq_false_2 by (by intros []). simpl.
      by exists [].
  - assert (names (reversed link) = Some (swap n)) as Hn'
      by (by rewrite names_reversed, Hn).
    assert (link_connected (devs st) (reversed link) = true) as Hlc.
    { unfold link_connected, connected_end. rewrite Hn'. simpl.
      rewrite Hl, Hc. apply orb_true_r. }
    destruct (loop_body_connected cables_create st _ Hlc) as (it & Hb & Hq).
    destruct (loop_body_names cables_create st _ _ Hn')
      as (st' & evs & e & Hbody & _ & Hb').
    rewrite Hb in Hb'. injection Hb' as <- ->. simpl in Hq.
    rewrite key_swap in *.
    eexists. split; [exact Hb|]. split; [exact Hq|].
    intros Hk Hin.
    assert (Log (MsgAlreadyConnected (key n)) ∉ evs) as Hevs.
    { eapply try_body_not_duplicate; [|exact Hbody]. by rewrite key_swap. }
    destruct e; [done|].
    apply elem_of_app in Hin as [?|[=]%list_elem_of_singleton]. done.
Qed.

Lemma exact_match_witness :
  ∃ evs,
    loop_body accepting
      {| devs := cabled_switches; already_connected_links := ∅; nb := [] |}
      (mk_link "sw1" "Gi0/1.100" "sw2" "Gi0/1")
    = Some ({| devs := cabled_switches; already_connected_links := ∅;
               nb := [] |},
            {| it_key := "sw1:Gi0/1_sw2:Gi0/1"; it_events := evs |}) ∧
    count_in is_request evs = 0 ∧ count_in is_conflict evs = 0.
Proof.
  assert (lookup_remote cabled_switches "sw1" "Gi0/1"
          = Some {| id := 11; connection_status := true;
                    connected_endpoint :=
                      Some {| device_name := "sw2"; name := "Gi0/1" |} |})
    as H by (vm_compute; reflexivity).
  destruct (exact_match accepting
              {| devs := cabled_switches; already_connected_links := ∅;
                 nb := [] |}
              (mk_link "sw1" "Gi0/1.100" "sw2" "Gi0/1") _ _
              eq_refl H eq_refl eq_refl) as [(evs & H1 & H2 & H3 & _) _].
  exists evs. split; [exact H1|]. split; [exact H2|exact H3].
Defined.

(** C5 as stated fails in its second half.  [sw1] records exactly the
    observed far end; the turn does nothing, and records no key either.
    The observation from the other end is then not stopped as a duplicate:
    it is examined like the first and here reports the conflict that [sw2]
    holds. *)
Lemma exact_match_counterexample :
  import_cabling_from_configs accepting true miscabled_switches []
    [mk_link "sw1" "Gi0/1" "sw2" "Gi0/1"; mk_link "sw2" "Gi0/1" "sw1" "Gi0/1"]
  = ({| devs := miscabled_switches; already_connected_links := ∅; nb := [] |},
     [{| it_key := "sw1:Gi0/1_sw2:Gi0/1"; it_events := [] |};
      {| it_key := "sw1:Gi0/1_sw2:Gi0/1";
         it_events := [Log (MsgDifferentDevice "sw2" "Gi0/1" "sw3" "sw1")] |}],
     ReturnNone).
Proof. vm_compute. reflexivity. Qed.

(** ** The VLAN registry *)

Section RegistryFacts.

Variable authoritative : Source → bool.
Variable add_vlan2 : NetworkImporterSite → string → Z → NetworkImporterSite.

Lemma add_vlan_known (site : NetworkImporterSite) (x : Z) (name0 : string)
    (source : Source) :
  is_Some (vlans (add_vlan authoritative site x name0 source) !! x).
Proof.
  unfold add_vlan. destruct (vlans site !! x) as [v|] eqn:E.
  - destruct (authoritative source); simpl.
    + rewrite lookup_insert_eq. by eexists.
    + rewrite E. by eexists.
  - simpl. rewrite lookup_insert_eq. by eexists.
Qed.

Lemma add_vlan_other (site : NetworkImporterSite) (x y : Z) (name0 : string)
    (source : Source) :
  x ≠ y →
  vlans (add_vlan authoritative site x name0 source) !! y = vlans site !! y.
Proof.
  intros Hne. unfold add_vlan. destruct (vlans site !! x) as [v|].
  - destruct (authoritative source); [|done]. simpl.
    by rewrite lookup_insert_ne.
  - simpl. by rewrite lookup_insert_ne.
Qed.

Lemma add_vlan_wf (site : NetworkImporterSite) (x : Z) (name0 : string)
    (source : Source) :
  registry_wf site → registry_wf (add_vlan authoritative site x name0 source).
Proof.
  intros Hwf k v. unfold add_vlan.
  destruct (vlans site !! x) as [w|] eqn:E.
  - destruct (authoritative source); [|apply Hwf]. simpl.
    rewrite lookup_insert. case_decide as Hk.
    + intros [= <-]. simpl. subst k. by apply Hwf.
    + apply Hwf.
  - simpl. rewrite lookup_insert. case_decide as Hk.
    + by intros [= <-].
    + apply Hwf.
Qed.

(** A known VLAN keeps its identity: id and existence flags. *)
Lemma add_vlan_merge (site : NetworkImporterSite) (x : Z) (name0 : string)
    (source : Source) (v : Vlan) :
  vlans site !! x = Some v →
  ∃ w, vlans (add_vlan authoritative site x name0 source) !! x = Some w ∧
       vid w = vid v ∧ exists_locally w = exists_locally v ∧
       exists_remotely w = exists_remotely v ∧
       vlan_name w = (if authoritative source then name0 else vlan_name v).
Proof.
  intros E. unfold add_vlan. rewrite E. destruct (authoritative source).
  - simpl. rewrite lookup_insert_eq. by eexists.
  - rewrite E. by eexists.
Qed.

Lemma import_vlans_config_spec (bf_vlans : list Z) (site : NetworkImporterSite) :
  registry_wf site →
  let site' := import_vlans_config authoritative site bf_vlans in
  registry_wf site' ∧
  ∀ x, is_Some (vlans site' !! x)
       ↔ is_Some (vlans site !! x) ∨ x ∈ bf_vlans.
Proof.
  revert site. induction bf_vlans as [|y l IH]; intros site Hwf; simpl.
  { split; [done|]. intros x. split; [by left|].
    by intros [?|?%elem_of_nil]. }
  unfold import_vlans_config in *. simpl.
  destruct (IH _ (add_vlan_wf site y ("vlan-" +:+ pretty y) ConfigAnalysis Hwf))
    as [IH1 IH2].
  split; [exact IH1|]. intros x. rewrite IH2, elem_of_cons.
  destruct (decide (y = x)) as [->|Hne].
  - split; [intros _; right; by left|]. intros _. left. apply add_vlan_known.
  - rewrite add_vlan_other by done. split.
    + intros [?|?]; [by left|right; by right].
    + intros [?|[->|?]]; [by left|done|by right].
Qed.

(** The CLI loop leaves a site alone when every collected id is known. *)
Lemma import_vlans_cli_known (data_vlans : list CliVlan)
    (site : NetworkImporterSite) :
  Forall (λ vlan, is_Some (vlans site !! vlan_id vlan)) data_vlans →
  import_vlans_cli authoritative add_vlan2 site data_vlans = site.
Proof.
  unfold import_vlans_cli.
  induction 1 as [|vlan l Hk _ IH]; [done|]. simpl.
  rewrite bool_decide_eq_false_2; [exact IH|].
  intros Hnot. by apply not_elem_of_dom, eq_None_not_Some in Hnot.
Qed.

(** In a well-filed registry the entities with id [x] are the one filed
    under [x], if any. *)
Lemma vlans_with_vid_lookup (site : NetworkImporterSite) (x : Z) :
  registry_wf site →
  vlans_with_vid site x
  = match vlans site !! x with Some v => {[x := v]} | None => ∅ end.
Proof.
  intros Hwf. unfold vlans_with_vid. apply map_eq. intros k.
  apply option_eq. intros v. rewrite map_lookup_filter_Some. simpl.
  split.
  - intros [Hk Hv]. pose proof (Hwf _ _ Hk) as Hkv.
    assert (k = x) as -> by congruence.
    rewrite Hk. by rewrite lookup_singleton_eq.
  - destruct (vlans site !! x) as [w|] eqn:E.
    + intros [-> ->]%lookup_singleton_Some. split; [done|]. by apply Hwf.
    + by rewrite lookup_empty.
Qed.

End RegistryFacts.

(** C8 (VLAN merge).  In a registry where every entity is filed under its
    own id, take a VLAN id that the configuration analysis reports for a
    device of the site, and let the live collection report the same id
    afterwards.  The registry then holds exactly one entity with that id:
    the collection loop finds the id among the keys and adds nothing.  The
    same holds for [add_vlan] called twice for one id from the two sources:
    the second call keeps the record of the first, id and existence flags,
    and adds no key. *)
Theorem vlan_merge (authoritative : Source → bool)
    (add_vlan2 : NetworkImporterSite → string → Z → NetworkImporterSite)
    (site : NetworkImporterSite) (bf_vlans : list Z) (x : Z)
    (name1 name2 : string) :
  registry_wf site →
  x ∈ bf_vlans →
  let s1 := import_vlans_config authoritative site bf_vlans in
  let s2 := import_vlans_cli authoritative add_vlan2 s1
              [{| cli_name := name2; vlan_id := x |}] in
  let t1 := add_vlan authoritative site x name1 ConfigAnalysis in
  let t2 := add_vlan authoritative t1 x name2 CliCollection in
  (size (vlans_with_vid s2 x) = 1 ∧ s2 = s1) ∧
  (size (vlans_with_vid t2 x) = 1 ∧ dom (vlans t2) = dom (vlans t1) ∧
   ∃ v w, vlans t1 !! x = Some v ∧ vlans t2 !! x = Some w ∧
          vid w = vid v ∧ exists_locally w = exists_locally v ∧
          exists_remotely w = exists_remotely v).
Proof.
  intros Hwf Hx s1 s2 t1 t2.
  destruct (import_vlans_config_spec authoritative bf_vlans site Hwf)
    as [Hwf1 Hdom]. fold s1 in Hwf1, Hdom.
  assert (is_Some (vlans s1 !! x)) as [v Hv] by (apply Hdom; by right).
  assert (s2 = s1) as Hs.
  { subst s2. apply import_vlans_cli_known. constructor; [|done].
    simpl. by eexists. }
  split.
  - split; [|exact Hs]. rewrite Hs, vlans_with_vid_lookup, Hv by done.
    apply map_size_singleton.
  - assert (registry_wf t1) as Hw1 by (by apply add_vlan_wf).
    assert (registry_wf t2) as Hw2 by (by apply add_vlan_wf).
    destruct (add_vlan_known authoritative site x name1 ConfigAnalysis)
      as [v1 Hv1]. fold t1 in Hv1.
    destruct (add_vlan_merge authoritative t1 x name2 CliCollection v1 Hv1)
      as (w & Hw & E1 & E2 & E3 & _). fold t2 in Hw.
    split; [|split].
    + rewrite vlans_with_vid_lookup, Hw by done. apply map_size_singleton.
    + apply set_eq. intros y. rewrite !elem_of_dom.
      destruct (decide (x = y)) as [<-|Hne].
      * rewrite Hv1, Hw. split; by eexists.
      * subst t2. by rewrite add_vlan_other.
    + by exists v1, w.
Qed.

Lemma vlan_merge_witness :
  size (vlans_with_vid
          (import_vlans_cli cli_names add_vlan2_ignored
             (import_vlans_config cli_names dc1 [100%Z])
             [{| cli_name := "prod"; vlan_id := 100 |}]) 100) = 1 ∧
  size (vlans_with_vid
          (add_vlan cli_names (add_vlan cli_names dc1 100 "prod" ConfigAnalysis)
             100 "prod" CliCollection) 100) = 1.
Proof.
  assert (registry_wf dc1) as Hwf.
  { intros k v H. vm_compute in H. discriminate H. }
  destruct (vlan_merge cli_names add_vlan2_ignored dc1 [100%Z] 100
              "prod" "prod" Hwf (list_elem_of_here _ _))
    as [[H1 _] [H2 _]].
  split; [exact H1|exact H2].
Defined.

(** * More about the cabling pass *)

Section MoreCabling.

Context {NetBox : Type}.
Variable cables_create : NetBox → Z → Z → NetBox * bool.


(** A free link: one request with the two remote ids in the order of the
    observation; the key is recorded when the request returned, and the
    fault is logged when it raised. *)
Lemma loop_body_create (st : LoopState NetBox) (link : Link) (n : Names)
    (lr rr : RemoteInterface) (nb' : NetBox) (ok : bool) :
  names link = Some n →
  eligible (devs st) (already_connected_links st) n lr rr →
  connection_status lr = false → connection_status rr = false →
  cables_create (nb st) (id lr) (id rr) = (nb', ok) →
  loop_body cables_create st link =
    Some ({| devs := devs st;
             already_connected_links :=
               if ok then <[key n := 1%Z]> (already_connected_links st)
               else already_connected_links st;
             nb := nb' |},
          {| it_key := key n;
             it_events :=
               [Log (MsgWillCreate (local_host n) (local_intf n)
                                   (remote_host n) (remote_intf n));
                CablesCreate (id lr) (id rr) ok]
               ++ (if ok then [] else [Log (MsgWentWrong (key n))]) |}).
Proof.
  intros Hn E%gates_pass_iff Hl Hr Hc.
  rewrite (loop_body_passed _ _ _ _ _ _ Hn E).
  unfold connect. rewrite Hl, Hr, Hc. by destruct ok.
Qed.

End MoreCabling.

(** X1 (a new link).  An observation that reaches conflict detection with
    no connection recorded on either end issues exactly one creation
    request, from the remote id of the first end to the remote id of the
    second.  When the request returns, the key is recorded with value 1;
    when it raises, the key stays unrecorded and the fault is logged under
    the key.  The inventory is not touched. *)
Theorem new_link_request {NetBox : Type}
    (cables_create : NetBox → Z → Z → NetBox * bool)
    (st : LoopState NetBox) (link : Link) (n : Names)
    (lr rr : RemoteInterface) :
  names link = Some n →
  eligible (devs st) (already_connected_links st) n lr rr →
  connection_status lr = false → connection_status rr = false →
  let r := cables_create (nb st) (id lr) (id rr) in
  loop_body cables_create st link =
    Some ({| devs := devs st;
             already_connected_links :=
               if r.2 then <[key n := 1%Z]> (already_connected_links st)
               else already_connected_links st;
             nb := r.1 |},
          {| it_key := key n;
             it_events :=
               [Log (MsgWillCreate (local_host n) (local_intf n)
                                   (remote_host n) (remote_intf n));
                CablesCreate (id lr) (id rr) r.2]
               ++ (if r.2 then [] else [Log (MsgWentWrong (key n))]) |}).
Proof.
  intros Hn E Hl Hr r.
  apply (loop_body_create _ _ _ _ _ _ _ _ Hn E Hl Hr).
  apply surjective_pairing.
Qed.

Lemma two_switches_eligible :
  eligible two_switches ∅
    {| local_host := "sw1"; local_intf := "Gi0/1";
       remote_host := "sw2"; remote_intf := "Gi0/1" |}
    {| id := 11; connection_status := false; connected_endpoint := None |}
    {| id := 21; connection_status := false; connected_endpoint := None |}.
Proof.
  split; [vm_compute; reflexivity|].
  eexists _, _. repeat split; vm_compute; reflexivity.
Qed.

Lemma new_link_request_witness :
  loop_body first_fails
    {| devs := two_switches; already_connected_links := ∅; nb := 0 |}
    (mk_link "sw1" "Gi0/1.100" "sw2" "Gi0/1")
  = Some ({| devs := two_switches; already_connected_links := ∅; nb := 1 |},
          {| it_key := "sw1:Gi0/1_sw2:Gi0/1";
             it_events :=
               [Log (MsgWillCreate "sw1" "Gi0/1" "sw2" "Gi0/1");
                CablesCreate 11 21 false;
                Log (MsgWentWrong "sw1:Gi0/1_sw2:Gi0/1")] |}).
Proof.
  exact (new_link_request first_fails
           {| devs := two_switches; already_connected_links := ∅; nb := 0 |}
           (mk_link "sw1" "Gi0/1.100" "sw2" "Gi0/1") _ _ _
           eq_refl two_switches_eligible eq_refl eq_refl).
Defined.

(** X2 (interface mismatch).  An observation that reaches conflict
    detection and whose first end records a far end on the observed device
    but on another interface logs the interface mismatch, with the recorded
    and the observed interface, and nothing else: no request, no change of
    state. *)
Theorem interface_mismatch {NetBox : Type}
    (cables_create : NetBox → Z → Z → NetBox * bool)
    (st : LoopState NetBox) (link : Link) (n : Names)
    (lr rr : RemoteInterface) (ep : ConnectedEndpoint) :
  names link = Some n →
  eligible (devs st) (already_connected_links st) n lr rr →
  connection_status lr = true →
  connected_endpoint lr = Some ep →
  device_name ep = remote_host n →
  name ep ≠ remote_intf n →
  loop_body cables_create st link =
    Some (st, {| it_key := key n;
                 it_events :=
                   [Log (MsgDifferentInterface (local_host n) (local_intf n)
                           (name ep) (remote_intf n))] |}).
Proof.
  intros Hn E%gates_pass_iff Hc He Hd Hi.
  rewrite (loop_body_passed _ _ _ _ _ _ Hn E).
  unfold connect, check_connected. rewrite Hc, He. simpl.
  rewrite bool_decide_eq_false_2 by (by intros []).
  rewrite bool_decide_eq_true_2 by done.
  by rewrite bool_decide_eq_true_2 by done.
Qed.

Lemma interface_mismatch_witness :
  loop_body accepting
    {| devs := <["sw1" := a_device
                   [("Gi0/1", an_interface false 11 true
                                (Some ("sw2", "Gi0/2")))]]> two_switches;
       already_connected_links := ∅; nb := [] |}
    (mk_link "sw1" "Gi0/1" "sw2" "Gi0/1")
  = Some ({| devs := <["sw1" := a_device
                   [("Gi0/1", an_interface false 11 true
                                (Some ("sw2", "Gi0/2")))]]> two_switches;
             already_connected_links := ∅; nb := [] |},
          {| it_key := "sw1:Gi0/1_sw2:Gi0/1";
             it_events :=
               [Log (MsgDifferentInterface "sw1" "Gi0/1" "Gi0/2" "Gi0/1")] |}).
Proof.
  refine (interface_mismatch accepting _
            (mk_link "sw1" "Gi0/1" "sw2" "Gi0/1") _
            {| id := 11; connection_status := true;
               connected_endpoint :=
                 Some {| device_name := "sw2"; name := "Gi0/2" |} |}
            {| id := 21; connection_status := false;
               connected_endpoint := None |}
            {| device_name := "sw2"; name := "Gi0/2" |}
            eq_refl _ eq_refl eq_refl eq_refl _).
  - split; [vm_compute; reflexivity|].
    eexists _, _. repeat split; vm_compute; reflexivity.
  - simpl. intros [= ?].
Defined.

(** X3 (a connection without endpoint).  When the end that is inspected
    records a connection but no endpoint, reading the endpoint raises: the
    turn logs the fault under the key of the link, requests nothing and
    leaves the state as it was.  This holds for the first end, and for the
    second end when the first one is free. *)
Theorem connection_without_endpoint {NetBox : Type}
    (cables_create : NetBox → Z → Z → NetBox * bool)
    (st : LoopState NetBox) (link : Link) (n : Names)
    (lr rr : RemoteInterface) :
  names link = Some n →
  eligible (devs st) (already_connected_links st) n lr rr →
  (connection_status lr = true ∧ connected_endpoint lr = None)
  ∨ (connection_status lr = false ∧ connection_status rr = true
     ∧ connected_endpoint rr = None) →
  loop_body cables_create st link =
    Some (st, {| it_key := key n;
                 it_events := [Log (MsgWentWrong (key n))] |}).
Proof.
  intros Hn E%gates_pass_iff H.
  rewrite (loop_body_passed _ _ _ _ _ _ Hn E).
  unfold connect, check_connected.
  destruct H as [[-> ->]|(-> & -> & ->)]; done.
Qed.

Lemma connection_without_endpoint_witness :
  loop_body accepting
    {| devs := <["sw1" := a_device
                   [("Gi0/1", an_interface false 11 true None)]]> two_switches;
       already_connected_links := ∅; nb := [] |}
    (mk_link "sw1" "Gi0/1" "sw2" "Gi0/1")
  = Some ({| devs := <["sw1" := a_device
                   [("Gi0/1", an_interface false 11 true None)]]> two_switches;
             already_connected_links := ∅; nb := [] |},
          {| it_key := "sw1:Gi0/1_sw2:Gi0/1";
             it_events := [Log (MsgWentWrong "sw1:Gi0/1_sw2:Gi0/1")] |}).
Proof.
  refine (connection_without_endpoint accepting _
            (mk_link "sw1" "Gi0/1" "sw2" "Gi0/1") _
            {| id := 11; connection_status := true;
               connected_endpoint := None |}
            {| id := 21; connection_status := false;
               connected_endpoint := None |}
            eq_refl _ _).
  - split; [vm_compute; reflexivity|].
    eexists _, _. repeat split; vm_compute; reflexivity.
  - left. split; reflexivity.
Defined.



(** X5 (duplicates go by the key alone).  Once the request for a free link
    returned, every later observation with the same key is skipped as
    already connected, before any of its names is looked up: the observation
    from the other end, and also the observation of any other link whose
    two [host:interface] strings happen to join to the same key. *)
Theorem same_key_skipped {NetBox : Type}
    (cables_create : NetBox → Z → Z → NetBox * bool)
    (st : LoopState NetBox) (l1 l2 : Link) (n1 n2 : Names)
    (lr rr : RemoteInterface) (nb' : NetBox) :
  names l1 = Some n1 → names l2 = Some n2 →
  key n2 = key n1 →
  eligible (devs st) (already_connected_links st) n1 lr rr →
  connection_status lr = false → connection_status rr = false →
  cables_create (nb st) (id lr) (id rr) = (nb', true) →
  (for_links cables_create st [l1; l2]).1.2
  = [{| it_key := key n1;
        it_events :=
          [Log (MsgWillCreate (local_host n1) (local_intf n1)
                              (remote_host n1) (remote_intf n1));
           CablesCreate (id lr) (id rr) true] |};
     {| it_key := key n1;
        it_events := [Log (MsgAlreadyConnected (key n1))] |}].
Proof.
  intros H1 H2 Hk E Hl Hr Hc. simpl.
  rewrite (loop_body_create _ _ _ _ _ _ _ _ H1 E Hl Hr Hc).
  assert (gates (devs st) (<[key n1:=1%Z]> (already_connected_links st)) n2
          = inl (MsgAlreadyConnected (key n1))) as G.
  { unfold gates. rewrite Hk, lookup_insert_eq.
    by rewrite bool_decide_eq_true_2 by (by eexists). }
  rewrite (loop_body_stopped cables_create
             {| devs := devs st;
                already_connected_links :=
                  <[key n1:=1%Z]> (already_connected_links st);
                nb := nb' |} l2 n2 _ H2 G).
  by rewrite Hk.
Qed.

Lemma same_key_skipped_witness :
  (for_links accepting
     {| devs := underscore_hosts; already_connected_links := ∅; nb := [] |}
     [mk_link "a" "x" "b_c" "y"; mk_link "a" "x_b" "c" "y"]).1.2
  = [{| it_key := "a:x_b_c:y";
        it_events := [Log (MsgWillCreate "a" "x" "b_c" "y");
                      CablesCreate 1 2 true] |};
     {| it_key := "a:x_b_c:y";
        it_events := [Log (MsgAlreadyConnected "a:x_b_c:y")] |}].
Proof.
  refine (same_key_skipped accepting
            {| devs := underscore_hosts; already_connected_links := ∅;
               nb := [] |}
            (mk_link "a" "x" "b_c" "y") (mk_link "a" "x_b" "c" "y") _ _
            {| id := 1; connection_status := false;
               connected_endpoint := None |}
            {| id := 2; connection_status := false;
               connected_endpoint := None |}
            _ eq_refl eq_refl eq_refl _ eq_refl eq_refl eq_refl).
  split; [vm_compute; reflexivity|].
  eexists _, _. repeat split; vm_compute; reflexivity.
Defined.

(** X6 (a port is not remembered as cabled).  The pass consults the
    connection status that was loaded before it started and the keys it
    recorded, nothing else.  Two observations with different keys that both
    reach conflict detection with free ends therefore both get their
    request, also when they share a port: the port that the first request
    cabled is offered again by the second. *)
Theorem port_requested_twice {NetBox : Type}
    (cables_create : NetBox → Z → Z → NetBox * bool)
    (st : LoopState NetBox) (l1 l2 : Link) (n1 n2 : Names)
    (lr1 rr1 lr2 rr2 : RemoteInterface) :
  names l1 = Some n1 → names l2 = Some n2 →
  key n1 ≠ key n2 →
  eligible (devs st) (already_connected_links st) n1 lr1 rr1 →
  eligible (devs st) (already_connected_links st) n2 lr2 rr2 →
  connection_status lr1 = false → connection_status rr1 = false →
  connection_status lr2 = false → connection_status rr2 = false →
  ∃ ok1 ok2,
    all_requests (for_links cables_create st [l1; l2]).1.2
    = [CablesCreate (id lr1) (id rr1) ok1; CablesCreate (id lr2) (id rr2) ok2].
Proof.
  intros H1 H2 Hk E1 E2 Hl1 Hr1 Hl2 Hr2. simpl.
  destruct (cables_create (nb st) (id lr1) (id rr1)) as [nb1 ok1] eqn:Hc1.
  rewrite (loop_body_create _ _ _ _ _ _ _ _ H1 E1 Hl1 Hr1 Hc1).
  set (st1 := {| devs := devs st;
                 already_connected_links :=
                   if ok1 then <[key n1:=1%Z]> (already_connected_links st)
                   else already_connected_links st;
                 nb := nb1 |}).
  assert (eligible (devs st1) (already_connected_links st1) n2 lr2 rr2) as E2'.
  { destruct E2 as [Hk2 Hrest]. split; [|exact Hrest].
    subst st1. simpl. destruct ok1; [|done]. by rewrite lookup_insert_ne. }
  destruct (cables_create (nb st1) (id lr2) (id rr2)) as [nb2 ok2] eqn:Hc2.
  rewrite (loop_body_create _ _ _ _ _ _ _ _ H2 E2' Hl2 Hr2 Hc2).
  exists ok1, ok2. unfold all_requests. simpl.
  by destruct ok1, ok2.
Qed.

Lemma port_requested_twice_witness :
  ∃ ok1 ok2,
    all_requests
      (for_links accepting
         {| devs := three_switches; already_connected_links := ∅; nb := [] |}
         [mk_link "sw1" "Gi0/1" "sw2" "Gi0/1";
          mk_link "sw1" "Gi0/1" "sw3" "Gi0/1"]).1.2
    = [CablesCreate 11 21 ok1; CablesCreate 11 31 ok2].
Proof.
  refine (port_requested_twice accepting
            {| devs := three_switches; already_connected_links := ∅;
               nb := [] |}
            (mk_link "sw1" "Gi0/1" "sw2" "Gi0/1")
            (mk_link "sw1" "Gi0/1" "sw3" "Gi0/1") _ _
            {| id := 11; connection_status := false;
               connected_endpoint := None |}
            {| id := 21; connection_status := false;
               connected_endpoint := None |}
            {| id := 11; connection_status := false;
               connected_endpoint := None |}
            {| id := 31; connection_status := false;
               connected_endpoint := None |}
            eq_refl eq_refl _ _ _ eq_refl eq_refl eq_refl eq_refl).
  - vm_compute. intros [= ?].
  - split; [vm_compute; reflexivity|].
    eexists _, _. repeat split; vm_compute; reflexivity.
  - split; [vm_compute; reflexivity|].
    eexists _, _. repeat split; vm_compute; reflexivity.
Defined.

(** X7 (the pass stops at the first unreadable row).  With readable rows in
    front of a row whose endpoint cannot be read, the loop handles the rows
    in front exactly as it would without what follows, keeps what they
    recorded and requested, and then raises: the unreadable row and all rows
    behind it leave no trace. *)
Theorem stops_at_unreadable_row {NetBox : Type}
    (cables_create : NetBox → Z → Z → NetBox * bool)
    (st : LoopState NetBox) (front : list Link) (bad : Link)
    (behind : list Link) :
  Forall (λ link, is_Some (names link)) front →
  names bad = None →
  for_links cables_create st (front ++ bad :: behind)
  = ((for_links cables_create st front).1.1,
     (for_links cables_create st front).1.2, true).
Proof.
  intros Hf Hb. revert st.
  induction Hf as [|link front [n Hn] _ IH]; intros st; simpl.
  - by rewrite loop_body_malformed.
  - destruct (loop_body_names cables_create st link n Hn)
      as (st' & evs & e & _ & _ & ->).
    rewrite IH.
    by destruct (for_links cables_create st' front) as [[st'' its] r].
Qed.

Lemma stops_at_unreadable_row_witness :
  for_links accepting
    {| devs := two_switches; already_connected_links := ∅; nb := [] |}
    (both_ways ++ bad_then_good)
  = ({| devs := two_switches;
        already_connected_links := {["sw1:Gi0/1_sw2:Gi0/1" := 1%Z]};
        nb := [(11, 21)%Z] |},
     [{| it_key := "sw1:Gi0/1_sw2:Gi0/1";
         it_events := [Log (MsgWillCreate "sw1" "Gi0/1" "sw2" "Gi0/1");
                       CablesCreate 11 21 true] |};
      {| it_key := "sw1:Gi0/1_sw2:Gi0/1";
         it_events := [Log (MsgAlreadyConnected "sw1:Gi0/1_sw2:Gi0/1")] |}],
     true).
Proof.
  refine (eq_trans
            (stops_at_unreadable_row accepting _ both_ways
               {| Interface := None; Remote_Interface := None |}
               [mk_link "sw1" "Gi0/1" "sw2" "Gi0/1"] _ eq_refl) _).
  - repeat constructor; by eexists.
  - vm_compute. reflexivity.
Defined.

(** X8 (one request per observation at most).  Whatever the rows, the
    inventory and the answers of the system of record, a turn of the loop
    issues at most one creation request, so a run issues at most as many
    requests as it was given rows. *)
Theorem requests_bounded {NetBox : Type}
    (cables_create : NetBox → Z → Z → NetBox * bool)
    (import_cabling : bool) (hosts : Hosts) (netbox : NetBox)
    (links : list Link) :
  let its := (import_cabling_from_configs cables_create import_cabling
                hosts netbox links).1.2 in
  Forall (λ it, count_in is_request (it_events it) ≤ 1) its ∧
  length (all_requests its) ≤ length links.
Proof.
  intros its. subst its. destruct import_cabling; cycle 1.
  { rewrite import_disabled. simpl. split; [constructor|].
    unfold all_requests. simpl. lia. }
  rewrite import_enabled. simpl.
  generalize ({| devs := hosts; already_connected_links := ∅;
                 nb := netbox |} : LoopState NetBox).
  induction links as [|link links IH]; intros st; simpl.
  { split; [constructor|]. unfold all_requests. simpl. lia. }
  destruct (names link) as [n|] eqn:Hn; cycle 1.
  { rewrite loop_body_malformed by done. simpl.
    split; [constructor|]. unfold all_requests. simpl. lia. }
  destruct (loop_body_names cables_create st link n Hn)
    as (st' & evs & e & _ & T & ->).
  destruct (IH st') as [IH1 IH2].
  destruct (for_links cables_create st' links) as [[st'' its] r].
  simpl in *.
  assert (count_in is_request
            (match e with
             | Normal => evs
             | Exception => evs ++ [Log (MsgWentWrong (key n))]
             end) ≤ 1) as Hone.
  { rewrite count_in_handler by done.
    destruct T as [evs e Hq|a b nb' ok _ _]; [lia|]. by unfold count_in. }
  split; [by constructor|].
  unfold all_requests in *. rewrite fmap_cons, concat_cons, List.filter_app.
  rewrite length_app. simpl. unfold count_in in Hone. lia.
Qed.

(** X9 (a subinterface stands for its port).  An observation made on a
    subinterface [base.<digits>] is handled exactly like the observation on
    [base] itself, at either end, when [base] has nothing to strip: same
    key, same lookups, same events, same state. *)
Theorem subinterface_as_port {NetBox : Type}
    (cables_create : NetBox → Z → Z → NetBox * bool)
    (st : LoopState NetBox) (hA hB base other ds : string) :
  all_digits ds = true →
  Py.re_sub base = base →
  loop_body cables_create st (mk_link hA (base +:+ "." +:+ ds) hB other)
  = loop_body cables_create st (mk_link hA base hB other) ∧
  loop_body cables_create st (mk_link hA other hB (base +:+ "." +:+ ds))
  = loop_body cables_create st (mk_link hA other hB base).
Proof.
  intros Hd Hb. unfold loop_body, names, mk_link. simpl.
  by rewrite (re_sub_suffix _ _ Hd), Hb.
Qed.

Lemma subinterface_as_port_witness :
  loop_body accepting
    {| devs := two_switches; already_connected_links := ∅; nb := [] |}
    (mk_link "sw1" "Gi0/1.100" "sw2" "Gi0/1")
  = loop_body accepting
    {| devs := two_switches; already_connected_links := ∅; nb := [] |}
    (mk_link "sw1" "Gi0/1" "sw2" "Gi0/1").
Proof.
  exact (proj1 (subinterface_as_port accepting
                  {| devs := two_switches; already_connected_links := ∅;
                     nb := [] |}
                  "sw1" "sw2" "Gi0/1" "Gi0/1" "100" eq_refl eq_refl)).
Defined.

Lemma strip_subinterface_changes (s : string) :
  strip_subinterface s ≠ s →
  ∃ ds, all_digits ds = true
        ∧ s = strip_subinterface s +:+ "." +:+ ds.
Proof.
  induction s as [|c s IH]; [done|]. simpl.
  destruct (Ascii.eqb c "." && all_digits s) eqn:E.
  - intros _. apply andb_true_iff in E as [->%Ascii.eqb_eq Hs].
    by exists s.
  - intros Hne. destruct IH as (ds & Hds & Hs); [congruence|].
    exists ds. split; [done|].
    change (String c s = String c (strip_subinterface s +:+ "." +:+ ds)).
    by rewrite <- Hs.
Qed.

(** X10 (what the pattern removes).  On a name that does not end with a
    newline the substitution changes the name only when it ends with a dot
    and a non-empty run of digits, and then removes exactly that suffix:
    the result is always a prefix of the name, and names without such a
    suffix, names without any dot among them, are kept as they are. *)
Theorem re_sub_only_suffix (s : string) :
  no_final_newline s = true →
  Py.re_sub s = s
  ∨ ∃ ds, all_digits ds = true ∧ s = Py.re_sub s +:+ "." +:+ ds.
Proof.
  intros Hn. rewrite (re_sub_strip_subinterface _ Hn).
  destruct (String.string_dec (strip_subinterface s) s) as [?|Hne];
    [by left|right].
  by apply strip_subinterface_changes.
Qed.

Lemma re_sub_only_suffix_witness :
  Py.re_sub "Gi0/1.100" = "Gi0/1.100"
  ∨ ∃ ds, all_digits ds = true
          ∧ "Gi0/1.100" = Py.re_sub "Gi0/1.100" +:+ "." +:+ ds.
Proof. exact (re_sub_only_suffix "Gi0/1.100" eq_refl). Defined.

(** * Splitting strings *)

Section PyStrFacts.
Import PyStr.

Variable sep : ascii.

Lemma contains_app (a b : string) :
  contains sep (a +:+ b) = contains sep a || contains sep b.
Proof.
  induction a as [|c a IH]; [done|]. simpl. by rewrite IH, orb_assoc.
Qed.

Lemma split_not_nil (s : string) : split sep s ≠ [].
Proof.
  induction s as [|c s IH]; [done|]. simpl.
  destruct (Ascii.eqb c sep); [done|]. by destruct (split sep s).
Qed.

Lemma split_whole (s : string) :
  contains sep s = false → split sep s = [s].
Proof.
  induction s as [|c s IH]; [done|]. simpl.
  destruct (Ascii.eqb c sep); [done|]. simpl.
  intros H. by rewrite (IH H).
Qed.

(** Splitting distributes over a separator: the pieces of [a], then the
    pieces of [b]. *)
Lemma split_app_sep (a b : string) :
  split sep (a +:+ String sep b) = split sep a ++ split sep b.
Proof.
  induction a as [|c a IH]; simpl.
  - by rewrite Ascii.eqb_refl.
  - destruct (Ascii.eqb c sep); [by rewrite IH|].
    rewrite IH. pose proof (split_not_nil a).
    by destruct (split sep a).
Qed.

Lemma split_pieces (s : string) :
  Forall (λ w, contains sep w = false) (split sep s).
Proof.
  induction s as [|c s IH]; simpl; [by repeat constructor|].
  destruct (Ascii.eqb c sep) eqn:E; [by constructor|].
  destruct (split sep s) as [|w ws]; [by repeat constructor; simpl; rewrite E|].
  inversion IH; subst. constructor; [|done]. simpl. by rewrite E.
Qed.

Lemma split_join (items : list string) :
  items ≠ [] →
  Forall (λ w, contains sep w = false) items →
  split sep (Py.join (String sep EmptyString) items) = items.
Proof.
  intros Hne Hall. induction Hall as [|w ws Hw Hws IH]; [done|].
  destruct ws as [|w' ws'].
  - simpl. by apply split_whole.
  - change (Py.join (String sep EmptyString) (w :: w' :: ws'))
      with (w +:+ String sep (Py.join (String sep EmptyString) (w' :: ws'))).
    rewrite split_app_sep, (split_whole _ Hw), IH by done. done.
Qed.

Lemma split_once_whole (s : string) :
  contains sep s = false → split_once sep s = [s].
Proof.
  induction s as [|c s IH]; [done|]. simpl.
  destruct (Ascii.eqb c sep); [done|]. simpl.
  intros H. by rewrite (IH H).
Qed.

(** With a separator in it, a string is cut in two at the first one. *)
Lemma split_once_cut (s : string) :
  contains sep s = true →
  ∃ k v, split_once sep s = [k; v] ∧ s = k +:+ String sep v
         ∧ contains sep k = false.
Proof.
  induction s as [|c s IH]; [done|]. simpl.
  destruct (Ascii.eqb c sep) eqn:E.
  - intros _. exists EmptyString, s. apply Ascii.eqb_eq in E as ->. done.
  - simpl. intros H. destruct (IH H) as (k & v & -> & -> & Hk).
    exists (String c k), v. simpl. by rewrite E.
Qed.

Lemma split_once_item (k v : string) :
  contains sep k = false →
  split_once sep (k +:+ String sep v) = [k; v].
Proof.
  induction k as [|c k IH]; simpl.
  - by rewrite Ascii.eqb_refl.
  - destruct (Ascii.eqb c sep); [done|]. simpl. intros H. by rewrite (IH H).
Qed.

(** Every string is free of the separator or ends with a separator-free
    piece behind its last separator. *)
Lemma last_separator (s : string) :
  contains sep s = false
  ∨ ∃ pre d, s = pre +:+ String sep d ∧ contains sep d = false.
Proof.
  induction s as [|c s IH]; [by left|]. simpl.
  destruct IH as [H|(pre & d & -> & Hd)].
  - destruct (Ascii.eqb c sep) eqn:E; [|by left].
    right. exists EmptyString, s. apply Ascii.eqb_eq in E as ->. done.
  - right. by exists (String c pre), d.
Qed.

End PyStrFacts.

(** * The inventory filters *)

Section FilterFacts.
Import PyStr.

Lemma add_params_raised (l : list string) :
  foldl (λ (acc : option (gmap string string)) csp,
           params ← acc;
           if negb (contains "=" csp) then Some params
           else
             match split_once "=" csp with
             | [key; value] => Some (<[key := value]> params)
             | _ => None
             end) None l = None.
Proof. by induction l. Qed.

Lemma add_params_nil (params : gmap string string) :
  add_params params [] = Some params.
Proof. reflexivity. Qed.

Lemma add_params_skip (params : gmap string string) (csp : string)
    (l : list string) :
  contains "=" csp = false →
  add_params params (csp :: l) = add_params params l.
Proof. intros H. unfold add_params. simpl. by rewrite H. Qed.

Lemma add_params_item (params : gmap string string) (k v : string)
    (l : list string) :
  contains "=" k = false →
  add_params params ((k +:+ String "=" v) :: l)
  = add_params (<[k := v]> params) l.
Proof.
  intros H. unfold add_params. simpl.
  rewrite contains_app. simpl. rewrite orb_true_r. simpl.
  by rewrite split_once_item.
Qed.

(** One item: passed over, or cut at its first [=] and stored. *)
Lemma add_params_cons (params : gmap string string) (csp : string)
    (l : list string) :
  (contains "=" csp = false ∧
   add_params params (csp :: l) = add_params params l)
  ∨ ∃ k v, csp = k +:+ String "=" v ∧ contains "=" k = false ∧
           add_params params (csp :: l) = add_params (<[k := v]> params) l.
Proof.
  destruct (contains "=" csp) eqn:E.
  - right. destruct (split_once_cut _ _ E) as (k & v & _ & -> & Hk).
    exists k, v. split; [done|]. split; [done|]. by apply add_params_item.
  - left. split; [done|]. by apply add_params_skip.
Qed.

(** The items of a comma-separated list never make the unpacking raise,
    and they only add entries whose key has neither [=] nor [,] and whose
    value has no [,]. *)
Lemma add_params_inv (P : string → string → Prop) (l : list string)
    (params : gmap string string) :
  Forall (λ w, contains "," w = false) l →
  (∀ k v, contains "=" k = false → contains "," k = false →
          contains "," v = false → P k v) →
  (∀ k v, params !! k = Some v → P k v) →
  ∃ m, add_params params l = Some m ∧ ∀ k v, m !! k = Some v → P k v.
Proof.
  intros Hl HP. revert params.
  induction Hl as [|csp l Hc _ IH]; intros params Hp.
  { exists params. by rewrite add_params_nil. }
  destruct (add_params_cons params csp l) as [[_ ->]|(k & v & -> & Hk & ->)].
  - by apply IH.
  - apply IH. intros k' v'. rewrite lookup_insert. case_decide as Hkk.
    + intros [= <-]. subst k'.
      rewrite contains_app in Hc. simpl in Hc.
      apply orb_false_iff in Hc as [Hck Hcv]. by apply HP.
    + apply Hp.
Qed.

Lemma add_params_pairs (pairs : list (string * string))
    (params : gmap string string) :
  Forall (λ kv, contains "=" kv.1 = false) pairs →
  add_params params (filter_item <$> pairs)
  = Some (foldl (λ m kv, <[kv.1 := kv.2]> m) params pairs).
Proof.
  intros H. revert params.
  induction H as [|[k v] pairs Hk _ IH]; intros params; [done|].
  rewrite fmap_cons.
  change (filter_item (k, v)) with (k +:+ String "=" v).
  by rewrite add_params_item, IH.
Qed.

(** Writing pairs one after the other: the last one written for a key
    stays, and what was there before stays for the other keys. *)
Lemma foldl_insert_union (pairs : list (string * string))
    (params : gmap string string) :
  foldl (λ m kv, <[kv.1 := kv.2]> m) params pairs
  = list_to_map (reverse pairs) ∪ params.
Proof.
  induction pairs as [|kv pairs IH] using rev_ind.
  - simpl. by rewrite (left_id_L ∅ (∪)).
  - rewrite foldl_app, reverse_app. simpl.
    by rewrite IH, insert_union_l.
Qed.

Lemma filter_items_ok (pairs : list (string * string)) :
  Forall filter_pair_ok pairs →
  Forall (λ w, contains "," w = false) (filter_item <$> pairs).
Proof.
  intros H. apply Forall_fmap. eapply Forall_impl; [exact H|].
  intros [k v] (_ & Hk & Hv). simpl in *.
  change (filter_item (k, v)) with (k +:+ String "=" v).
  rewrite contains_app. simpl. by rewrite Hk, Hv.
Qed.

Lemma filter_items_split (pairs : list (string * string)) :
  pairs ≠ [] →
  Forall filter_pair_ok pairs →
  split "," (Py.join "," (filter_item <$> pairs)) = filter_item <$> pairs.
Proof.
  intros Hne H. apply (split_join ","); [by destruct pairs|].
  by apply filter_items_ok.
Qed.

End FilterFacts.

Lemma contains_join_head (c : ascii) (sep x : string) (l : list string) :
  PyStr.contains c x = true →
  PyStr.contains c (Py.join sep (x :: l)) = true.
Proof.
  intros H. destruct l as [|y l]; [done|].
  change (Py.join sep (x :: y :: l)) with (x +:+ sep +:+ Py.join sep (y :: l)).
  by rewrite contains_app, H.
Qed.

Lemma filter_parameters_no_limit (f : option string) :
  filter_parameters f None
  = match f with
    | Some f => add_params ∅ (PyStr.split "," f)
    | None => Some ∅
    end.
Proof.
  unfold filter_parameters. destruct f as [f|]; [|done].
  by destruct (add_params ∅ (PyStr.split "," f)).
Qed.

Lemma filter_parameters_limit (f : option string) (l : string)
    (params : gmap string string) :
  filter_parameters f None = Some params →
  filter_parameters f (Some l)
  = if bool_decide (l = EmptyString) then Some params
    else if negb (PyStr.contains "=" l) then Some (<["name" := l]> params)
    else add_params params (PyStr.split "," l).
Proof.
  rewrite filter_parameters_no_limit. unfold filter_parameters.
  by intros ->.
Qed.

(** X11 (the filters never fail).  Whatever [inventory_filter] and [limit]
    hold, building the filter parameters does not raise: an item is only
    unpacked when it has an [=], and is then cut in exactly two.  No key of
    the result holds an [=] or a comma, and a value holds a comma only when
    it is a [limit] without [=], stored whole under [name]. *)
Theorem filter_parameters_sound (inventory_filter limit : option string)
    (inventory_source : string) (has_configs_directory : bool) :
  ∃ params,
    filter_parameters inventory_filter limit = Some params ∧
    build_inventory inventory_filter inventory_source has_configs_directory
      limit ≠ Raises ∧
    ∀ k v, params !! k = Some v →
      PyStr.contains "=" k = false ∧ PyStr.contains "," k = false ∧
      (PyStr.contains "," v = true → k = "name" ∧ limit = Some v).
Proof.
  set (P := λ k v : string,
         PyStr.contains "=" k = false ∧ PyStr.contains "," k = false ∧
         PyStr.contains "," v = false).
  assert (∃ m, filter_parameters inventory_filter None = Some m ∧
               ∀ k v, m !! k = Some v → P k v) as (m & Hm & HP).
  { rewrite filter_parameters_no_limit. destruct inventory_filter as [f|].
    - apply add_params_inv; [apply split_pieces|done|].
      intros k v. by rewrite lookup_empty.
    - exists ∅. split; [done|]. intros k v. by rewrite lookup_empty. }
  assert (∃ params, filter_parameters inventory_filter limit = Some params ∧
            ∀ k v, params !! k = Some v →
              PyStr.contains "=" k = false ∧ PyStr.contains "," k = false ∧
              (PyStr.contains "," v = true → k = "name" ∧ limit = Some v))
    as (params & Hp & HQ).
  { destruct limit as [l|].
    - rewrite (filter_parameters_limit _ _ _ Hm).
      case_bool_decide.
      { exists m. split; [done|]. intros k v [? [? ?]]%HP.
        split; [done|]. split; [done|]. congruence. }
      destruct (PyStr.contains "=" l) eqn:E; simpl.
      + destruct (add_params_inv P (PyStr.split "," l) m)
          as (m' & -> & HP'); [apply split_pieces|done|done|].
        exists m'. split; [done|]. intros k v [? [? ?]]%HP'.
        split; [done|]. split; [done|]. congruence.
      + exists (<["name" := l]> m). split; [done|].
        intros k v. rewrite lookup_insert. case_decide as Hk.
        * intros [= <-]. subst k. done.
        * intros [? [? ?]]%HP. split; [done|]. split; [done|]. congruence.
    - exists m. split; [done|]. intros k v [? [? ?]]%HP.
      split; [done|]. split; [done|]. congruence. }
  exists params. split; [done|]. split; [|done].
  unfold build_inventory. rewrite Hp.
  by repeat case_match.
Qed.

(** X12 (filters read back).  Take pairs whose keys have neither [=] nor
    comma and whose values have no comma, write each as [key=value] and
    join them with commas: as [inventory_filter], with no [limit], that
    string gives back the pairs, the last one written for a key being the
    one that stays. *)
Theorem filters_round_trip (pairs : list (string * string)) :
  Forall filter_pair_ok pairs →
  filter_parameters (Some (Py.join "," (filter_item <$> pairs))) None
  = Some (list_to_map (reverse pairs)).
Proof.
  intros H. rewrite filter_parameters_no_limit.
  destruct pairs as [|kv pairs]; [done|].
  rewrite filter_items_split by done.
  rewrite add_params_pairs, foldl_insert_union.
  - by rewrite (right_id_L ∅ (∪)).
  - eapply Forall_impl; [exact H|]. by intros kv' [? _].
Qed.

Lemma filters_round_trip_witness :
  filter_parameters (Some "site=dc1,role=leaf,site=dc2") None
  = Some (list_to_map [("site", "dc2"); ("role", "leaf"); ("site", "dc1")]).
Proof.
  refine (filters_round_trip
            [("site", "dc1"); ("role", "leaf"); ("site", "dc2")] _).
  repeat constructor.
Defined.

(** X13 (the limit has the last word).  Let the configured filter give
    [params].  An empty [limit] changes nothing; a [limit] without [=] is
    stored whole under [name], commas included, and replaces a configured
    [name]; a [limit] made of [key=value] items is read like the filter, and
    its entries replace the configured ones with the same key while the
    others stay. *)
Theorem limit_overrides (inventory_filter : option string)
    (params : gmap string string) :
  filter_parameters inventory_filter None = Some params →
  filter_parameters inventory_filter (Some EmptyString) = Some params ∧
  (∀ l, l ≠ EmptyString → PyStr.contains "=" l = false →
     filter_parameters inventory_filter (Some l)
     = Some (<["name" := l]> params)) ∧
  (∀ pairs, pairs ≠ [] → Forall filter_pair_ok pairs →
     filter_parameters inventory_filter
       (Some (Py.join "," (filter_item <$> pairs)))
     = Some (list_to_map (reverse pairs) ∪ params)).
Proof.
  intros Hp. split; [|split].
  - by rewrite (filter_parameters_limit _ _ _ Hp).
  - intros l Hl He. rewrite (filter_parameters_limit _ _ _ Hp).
    by rewrite bool_decide_eq_false_2, He.
  - intros pairs Hne H. rewrite (filter_parameters_limit _ _ _ Hp).
    assert (PyStr.contains "=" (Py.join "," (filter_item <$> pairs)) = true)
      as Hc.
    { destruct pairs as [|[k v] pairs]; [done|]. rewrite fmap_cons.
      apply contains_join_head.
      change (filter_item (k, v)) with (k +:+ String "=" v).
      rewrite contains_app. simpl. apply orb_true_r. }
    rewrite bool_decide_eq_false_2 by (by intros E; rewrite E in Hc).
    rewrite Hc. simpl. rewrite filter_items_split by done.
    rewrite add_params_pairs, foldl_insert_union; [done|].
    eapply Forall_impl; [exact H|]. by intros kv' [? _].
Qed.

Lemma limit_overrides_witness :
  filter_parameters (Some "site=dc1,name=sw9") (Some "sw1,sw2")
  = Some (<["name" := "sw1,sw2"]>
            (list_to_map [("name", "sw9"); ("site", "dc1")])).
Proof.
  refine (proj1 (proj2 (limit_overrides (Some "site=dc1,name=sw9")
                          (list_to_map [("name", "sw9"); ("site", "dc1")]) _))
            "sw1,sw2" _ eq_refl).
  - vm_compute. reflexivity.
  - intros [= ?].
Defined.

(** X14 (the network name).  [NETWORK_NAME] is [network-importer-] followed
    by what stands behind the last [/] of the working directory, or by the
    whole of it when there is no [/]; that part holds no [/], and it is
    empty when the path ends with one.  Taking the last piece never
    raises. *)
Theorem network_name_last_component (cwd : string) :
  ∃ d, network_name cwd = Some ("network-importer-" +:+ d) ∧
       PyStr.contains "/" d = false ∧
       (cwd = d ∨ ∃ pre, cwd = pre +:+ String "/" d).
Proof.
  unfold network_name.
  destruct (last_separator "/" cwd) as [H|(pre & d & -> & Hd)].
  - exists cwd. rewrite split_whole by done. simpl. by split; [|split; [|left]].
  - exists d. rewrite split_app_sep, (split_whole _ d Hd), last_snoc. simpl.
    split; [done|]. split; [done|]. right. by exists pre.
Qed.

(** * The sites of [init] *)

Section SiteFacts.

Variable initial_vlans : string → gmap Z Vlan.

Lemma init_site_cases (sites : Sites) (dev : DeviceObj) :
  (dev_exist_remote dev = false ∧
   init_site initial_vlans sites dev = Some (sites, dev))
  ∨ (dev_exist_remote dev = true ∧ dev_remote_site_slug dev = None ∧
     init_site initial_vlans sites dev = None)
  ∨ ∃ k, dev_exist_remote dev = true ∧ dev_remote_site_slug dev = Some k ∧
         init_site initial_vlans sites dev
         = Some (match sites !! k with
                 | Some _ => sites
                 | None => <[k := new_site initial_vlans k]> sites
                 end, set_site dev k).
Proof.
  unfold init_site. destruct (dev_exist_remote dev); simpl; [|by left].
  right. destruct (dev_remote_site_slug dev) as [k|]; [|by left].
  right. exists k. split; [done|]. split; [done|].
  case_bool_decide as Hk.
  - apply not_elem_of_dom in Hk. by rewrite Hk.
  - apply elem_of_dom in Hk as [s Hs]. by rewrite Hs.
Qed.

Lemma init_sites_cons (sites : Sites) (dev_name : string) (dev : DeviceObj)
    (rest : InventoryHosts) :
  init_sites initial_vlans sites ((dev_name, dev) :: rest)
  = match init_site initial_vlans sites dev with
    | None => None
    | Some (sites', dev') =>
        match init_sites initial_vlans sites' rest with
        | None => None
        | Some (sites'', rest') => Some (sites'', (dev_name, dev') :: rest')
        end
    end.
Proof.
  simpl. destruct (init_site initial_vlans sites dev) as [[sites' dev']|];
    [|done]. simpl.
  by destruct (init_sites initial_vlans sites' rest) as [[? ?]|].
Qed.

(** What the loop does to the sites: those that were there stay as they
    were, and the slugs of the devices that exist remotely are added, each
    with a new site. *)
Lemma init_sites_sites (hosts : InventoryHosts) (sites sites' : Sites)
    (hosts' : InventoryHosts) :
  init_sites initial_vlans sites hosts = Some (sites', hosts') →
  ∀ k, sites' !! k
       = match sites !! k with
         | Some s => Some s
         | None =>
             if bool_decide (Exists (λ nd, dev_exist_remote nd.2 = true ∧
                                           dev_remote_site_slug nd.2 = Some k)
                                    hosts)
             then Some (new_site initial_vlans k) else None
         end.
Proof.
  revert sites sites' hosts'.
  induction hosts as [|[dev_name dev] rest IH]; intros sites sites' hosts'.
  { intros [= <- <-] k. destruct (sites !! k); [done|].
    rewrite bool_decide_eq_false_2; [done|]. by intros ?%Exists_nil. }
  rewrite init_sites_cons.
  destruct (init_site_cases sites dev)
    as [[He ->]|[(He & Hs & ->)|(k0 & He & Hs & ->)]]; [|done|].
  - destruct (init_sites initial_vlans sites rest) as [[s'' r']|] eqn:E;
      [|done].
    intros [= <- <-] k. rewrite (IH _ _ _ E k).
    destruct (sites !! k); [done|].
    rewrite (bool_decide_ext
               (Exists (λ nd, dev_exist_remote nd.2 = true ∧
                              dev_remote_site_slug nd.2 = Some k)
                       ((dev_name, dev) :: rest))
               (Exists (λ nd, dev_exist_remote nd.2 = true ∧
                              dev_remote_site_slug nd.2 = Some k) rest));
      [done|].
    rewrite Exists_cons. simpl. rewrite He.
    split; [intros [[? _]|?]; done|by right].
  - destruct (init_sites initial_vlans _ rest) as [[s'' r']|] eqn:E; [|done].
    intros [= <- <-] k. rewrite (IH _ _ _ E k).
    destruct (decide (k0 = k)) as [->|Hne].
    + destruct (sites !! k) as [s|] eqn:Hk; [by rewrite Hk|].
      rewrite lookup_insert_eq.
      rewrite bool_decide_eq_true_2; [done|]. by left.
    + assert (match sites !! k0 with
              | Some _ => sites
              | None => <[k0:=new_site initial_vlans k0]> sites
              end !! k = sites !! k) as ->.
      { destruct (sites !! k0); [done|]. by rewrite lookup_insert_ne. }
      destruct (sites !! k); [done|].
      rewrite (bool_decide_ext
                 (Exists (λ nd, dev_exist_remote nd.2 = true ∧
                                dev_remote_site_slug nd.2 = Some k)
                         ((dev_name, dev) :: rest))
                 (Exists (λ nd, dev_exist_remote nd.2 = true ∧
                                dev_remote_site_slug nd.2 = Some k) rest));
        [done|].
      rewrite Exists_cons. simpl. rewrite Hs.
      split; [intros [[_ [= ?]]|?]; done|by right].
Qed.

(** What the loop does to the devices. *)
Lemma init_sites_hosts (hosts : InventoryHosts) (sites sites' : Sites)
    (hosts' : InventoryHosts) :
  init_sites initial_vlans sites hosts = Some (sites', hosts') →
  hosts' = (λ nd : string * DeviceObj,
              (nd.1, match dev_remote_site_slug nd.2 with
                     | Some k =>
                         if dev_exist_remote nd.2 then set_site nd.2 k
                         else nd.2
                     | None => nd.2
                     end)) <$> hosts.
Proof.
  revert sites sites' hosts'.
  induction hosts as [|[dev_name dev] rest IH]; intros sites sites' hosts'.
  { by intros [= <- <-]. }
  rewrite init_sites_cons.
  destruct (init_site_cases sites dev)
    as [[He ->]|[(He & Hs & ->)|(k0 & He & Hs & ->)]]; [|done|].
  - destruct (init_sites initial_vlans sites rest) as [[s'' r']|] eqn:E;
      [|done].
    intros [= <- <-]. rewrite fmap_cons, <- (IH _ _ _ E). simpl.
    rewrite He. by destruct (dev_remote_site_slug dev).
  - destruct (init_sites initial_vlans _ rest) as [[s'' r']|] eqn:E; [|done].
    intros [= <- <-]. rewrite fmap_cons, <- (IH _ _ _ E). simpl.
    by rewrite He, Hs.
Qed.

Lemma init_sites_none (hosts : InventoryHosts) (sites : Sites) :
  init_sites initial_vlans sites hosts = None
  ↔ Exists (λ nd, dev_exist_remote nd.2 = true ∧
                  dev_remote_site_slug nd.2 = None) hosts.
Proof.
  revert sites. induction hosts as [|[dev_name dev] rest IH]; intros sites.
  { split; [done|]. by intros ?%Exists_nil. }
  rewrite init_sites_cons, Exists_cons. simpl.
  destruct (init_site_cases sites dev)
    as [[He ->]|[(He & Hs & ->)|(k0 & He & Hs & ->)]].
  - specialize (IH sites).
    destruct (init_sites initial_vlans sites rest) as [[? ?]|].
    + split; [done|]. intros [[? _]|H]; [congruence|].
      by apply IH in H.
    + split; [|done]. intros _. right. by apply IH.
  - split; [|done]. intros _. by left.
  - match goal with |- context [init_sites _ ?s rest] =>
      specialize (IH s); destruct (init_sites initial_vlans s rest)
        as [[? ?]|] end.
    + split; [done|]. intros [[_ ?]|H]; [congruence|].
      by apply IH in H.
    + split; [|done]. intros _. right. by apply IH.
Qed.

End SiteFacts.

Lemma init_sites_fixed (initial_vlans : string → gmap Z Vlan)
    (sites : Sites) (hosts : InventoryHosts) :
  Forall (λ nd : string * DeviceObj,
            dev_exist_remote nd.2 = true →
            ∃ k, dev_remote_site_slug nd.2 = Some k ∧ dev_site nd.2 = Some k
                 ∧ is_Some (sites !! k)) hosts →
  init_sites initial_vlans sites hosts = Some (sites, hosts).
Proof.
  induction 1 as [|[dev_name dev] rest Hd _ IH]; [done|].
  rewrite init_sites_cons. simpl in Hd.
  destruct (init_site_cases initial_vlans sites dev)
    as [[He ->]|[(He & Hs & ->)|(k0 & He & Hs & ->)]].
  - by rewrite IH.
  - destruct (Hd He) as (k & ? & _). congruence.
  - destruct (Hd He) as (k & Hk & Hsite & [s Hlook]).
    assert (k0 = k) as -> by congruence. rewrite Hlook, IH.
    destruct dev as [e sl si]. simpl in *. by subst.
Qed.

(** X15 (sites are only added).  When the loop over the hosts ends, every
    site that was registered before is still there and is the same site,
    its VLANs included; a key that is new holds a freshly created site and
    is the slug of a device that exists remotely; and the slug of every
    such device is a key. *)
Theorem sites_only_added (initial_vlans : string → gmap Z Vlan)
    (sites sites' : Sites) (hosts hosts' : InventoryHosts) :
  init_sites initial_vlans sites hosts = Some (sites', hosts') →
  (∀ k s, sites !! k = Some s → sites' !! k = Some s) ∧
  (∀ k s, sites !! k = None → sites' !! k = Some s →
     s = new_site initial_vlans k ∧
     Exists (λ nd, dev_exist_remote nd.2 = true ∧
                   dev_remote_site_slug nd.2 = Some k) hosts) ∧
  (∀ dev_name dev k,
     (dev_name, dev) ∈ hosts → dev_exist_remote dev = true →
     dev_remote_site_slug dev = Some k → is_Some (sites' !! k)).
Proof.
  intros H. pose proof (init_sites_sites _ _ _ _ _ H) as Hs.
  split; [|split].
  - intros k s Hk. by rewrite Hs, Hk.
  - intros k s Hk. rewrite Hs, Hk. case_bool_decide; [|done].
    by intros [= <-].
  - intros dev_name dev k Hin He Hslug. rewrite Hs.
    destruct (sites !! k); [by eexists|].
    rewrite bool_decide_eq_true_2; [by eexists|].
    apply Exists_exists. by exists (dev_name, dev).
Qed.

Lemma sites_only_added_witness : is_Some (dc1_only !! "dc1").
Proof.
  refine (proj2 (proj2 (sites_only_added no_vlans ∅ dc1_only fresh_hosts
                          sited_hosts _))
            "sw1" {| dev_exist_remote := true;
                     dev_remote_site_slug := Some "dc1"; dev_site := None |}
            "dc1" _ eq_refl eq_refl).
  - vm_compute. reflexivity.
  - left.
Defined.

(** X16 (devices get their site).  When the loop ends, the hosts are the
    same hosts in the same order.  A device that exists remotely refers to
    the site registered under its slug, so two devices with one slug refer
    to one and the same site; a device that does not exist remotely is
    left as it was, its site reference too. *)
Theorem devices_get_sites (initial_vlans : string → gmap Z Vlan)
    (sites sites' : Sites) (hosts hosts' : InventoryHosts) :
  init_sites initial_vlans sites hosts = Some (sites', hosts') →
  hosts'.*1 = hosts.*1 ∧
  ∀ i dev_name dev, hosts !! i = Some (dev_name, dev) →
    ∃ dev', hosts' !! i = Some (dev_name, dev') ∧
      dev_exist_remote dev' = dev_exist_remote dev ∧
      dev_remote_site_slug dev' = dev_remote_site_slug dev ∧
      (dev_exist_remote dev = false → dev' = dev) ∧
      (dev_exist_remote dev = true →
         ∃ k, dev_remote_site_slug dev = Some k ∧ dev_site dev' = Some k
              ∧ is_Some (sites' !! k)).
Proof.
  intros H. pose proof (init_sites_hosts _ _ _ _ _ H) as ->.
  split.
  { rewrite <- list_fmap_compose. by apply list_fmap_ext. }
  intros i dev_name dev Hi. rewrite list_lookup_fmap, Hi. simpl.
  eexists. split; [done|].
  destruct (dev_remote_site_slug dev) as [k|] eqn:Hs.
  - destruct (dev_exist_remote dev) eqn:He; simpl.
    + repeat split; try done. intros _. exists k. repeat split.
      rewrite (init_sites_sites _ _ _ _ _ H).
      destruct (sites !! k); [by eexists|].
      rewrite bool_decide_eq_true_2; [by eexists|].
      apply Exists_exists. exists (dev_name, dev).
      split; [by eapply list_elem_of_lookup_2|done].
    + by repeat split.
  - repeat split; try done. intros He. exfalso.
    assert (init_sites initial_vlans sites hosts = None) as Hn; [|congruence].
    apply init_sites_none, Exists_exists. exists (dev_name, dev).
    split; [by eapply list_elem_of_lookup_2|done].
Qed.

Lemma devices_get_sites_witness : sited_hosts.*1 = fresh_hosts.*1.
Proof.
  refine (proj1 (devices_get_sites no_vlans ∅ dc1_only fresh_hosts
                   sited_hosts _)).
  vm_compute. reflexivity.
Defined.

(** X17 (running the loop again changes nothing).  The sites and devices
    that the loop produced are a fixed point of the loop: a second run
    creates no site and leaves every reference as it is. *)
Theorem init_sites_again (initial_vlans : string → gmap Z Vlan)
    (sites sites' : Sites) (hosts hosts' : InventoryHosts) :
  init_sites initial_vlans sites hosts = Some (sites', hosts') →
  init_sites initial_vlans sites' hosts' = Some (sites', hosts').
Proof.
  intros H. apply init_sites_fixed.
  pose proof (init_sites_sites _ _ _ _ _ H) as Hs.
  rewrite (init_sites_hosts _ _ _ _ _ H).
  apply Forall_forall. intros [dev_name dev'] Hin.
  apply list_elem_of_fmap in Hin as ([dn dev] & [= -> ->] & Hin). simpl.
  destruct (dev_remote_site_slug dev) as [k|] eqn:Hslug.
  - destruct (dev_exist_remote dev) eqn:He; simpl; [|by rewrite He].
    intros _. exists k. split; [done|]. split; [done|].
    rewrite Hs. destruct (sites !! k); [by eexists|].
    rewrite bool_decide_eq_true_2; [by eexists|].
    apply Exists_exists. by exists (dn, dev).
  - intros He. exfalso.
    assert (init_sites initial_vlans sites hosts = None) as Hn; [|congruence].
    apply init_sites_none, Exists_exists. by exists (dn, dev).
Qed.

Lemma init_sites_again_witness :
  init_sites no_vlans dc1_only sited_hosts = Some (dc1_only, sited_hosts).
Proof.
  refine (init_sites_again no_vlans ∅ dc1_only fresh_hosts sited_hosts _).
  vm_compute. reflexivity.
Defined.

(** X18 (when the loop raises).  The loop over the hosts raises exactly
    when some device is flagged as existing remotely but has no remote
    record to read the site from; devices that do not exist remotely are
    passed over and never make it raise. *)
Theorem init_sites_raises (initial_vlans : string → gmap Z Vlan)
    (sites : Sites) (hosts : InventoryHosts) :
  init_sites initial_vlans sites hosts = None
  ↔ Exists (λ nd, dev_exist_remote nd.2 = true ∧
                  dev_remote_site_slug nd.2 = None) hosts.
Proof. apply init_sites_none. Qed.

(** * The VLAN imports across devices *)

Section VlanImportFacts.

Variable authoritative : Source → bool.
Variable add_vlan2 : NetworkImporterSite → string → Z → NetworkImporterSite.

Lemma add_vlan_name (site : NetworkImporterSite) (x : Z) (name0 : string)
    (source : Source) :
  site_name (add_vlan authoritative site x name0 source) = site_name site.
Proof.
  unfold add_vlan. destruct (vlans site !! x); [|done].
  by destruct (authoritative source).
Qed.

(** The config loop on one site: the name stays, and the ids known
    afterwards are those known before and those reported. *)
Lemma import_vlans_config_ids (bf_vlans : list Z) (site : NetworkImporterSite) :
  let site' := import_vlans_config authoritative site bf_vlans in
  site_name site' = site_name site ∧
  ∀ x, is_Some (vlans site' !! x)
       ↔ is_Some (vlans site !! x) ∨ x ∈ bf_vlans.
Proof.
  revert site. induction bf_vlans as [|y l IH]; intros site; simpl.
  { split; [done|]. intros x. split; [by left|].
    by intros [?|?%elem_of_nil]. }
  unfold import_vlans_config in *. simpl.
  destruct (IH (add_vlan authoritative site y ("vlan-" +:+ pretty y)
                  ConfigAnalysis)) as [IH1 IH2].
  split; [by rewrite IH1, add_vlan_name|].
  intros x. rewrite IH2, elem_of_cons.
  destruct (decide (y = x)) as [->|Hne].
  - split; [intros _; right; by left|]. intros _. left.
    apply add_vlan_known.
  - rewrite add_vlan_other by done. split.
    + intros [?|?]; [by left|right; by right].
    + intros [?|[->|?]]; [by left|done|by right].
Qed.

Lemma config_vlans_of_device_off (import_vlans : string) (sites : Sites)
    (dev : DeviceObj) (bf_vlans : list Z) :
  import_vlans ≠ "config" →
  config_vlans_of_device authoritative import_vlans sites dev bf_vlans
  = Some sites.
Proof.
  intros H. unfold config_vlans_of_device.
  by rewrite bool_decide_eq_false_2.
Qed.

Lemma import_vlans_from_configs_off (import_vlans : string) (sites : Sites)
    (devs : list (DeviceObj * list Z)) :
  import_vlans ≠ "config" →
  import_vlans_from_configs authoritative import_vlans sites devs
  = Some sites.
Proof.
  intros H. induction devs as [|[dev l] devs IH]; [done|]. simpl.
  by rewrite config_vlans_of_device_off.
Qed.

(** One device of the config import, the setting being [config]. *)
Lemma config_vlans_of_device_on (sites : Sites) (dev : DeviceObj)
    (bf_vlans : list Z) :
  config_vlans_of_device authoritative "config" sites dev bf_vlans
  = match bf_vlans, dev_site dev with
    | [], _ => Some sites
    | _ :: _, None => None
    | _ :: _, Some k =>
        Some (alter (λ site, import_vlans_config authoritative site bf_vlans)
                    k sites)
    end.
Proof. unfold config_vlans_of_device. simpl. by destruct bf_vlans. Qed.

Lemma import_vlans_from_configs_none (devs : list (DeviceObj * list Z))
    (sites : Sites) :
  import_vlans_from_configs authoritative "config" sites devs = None
  ↔ Exists (λ dl, dev_site dl.1 = None ∧ dl.2 ≠ []) devs.
Proof.
  revert sites. induction devs as [|[dev l] devs IH]; intros sites.
  { split; [done|]. by intros ?%Exists_nil. }
  cbn [import_vlans_from_configs]. rewrite config_vlans_of_device_on.
  rewrite Exists_cons. simpl.
  destruct l as [|y l].
  - simpl. rewrite IH. split; [by right|]. by intros [[_ ?]|?].
  - destruct (dev_site dev) as [k|]; simpl.
    + rewrite IH. split; [by right|]. by intros [[? _]|?].
    + split; [|done]. intros _. by left.
Qed.

(** The config import on the store of sites: no site appears or
    disappears, and each site gathers the ids reported for the devices that
    refer to it. *)
Lemma import_vlans_from_configs_ids (devs : list (DeviceObj * list Z))
    (sites sites' : Sites) :
  import_vlans_from_configs authoritative "config" sites devs = Some sites' →
  ∀ k,
    match sites !! k, sites' !! k with
    | Some site, Some site' =>
        site_name site' = site_name site ∧
        ∀ x, is_Some (vlans site' !! x)
             ↔ is_Some (vlans site !! x)
               ∨ Exists (λ dl, dev_site dl.1 = Some k ∧ x ∈ dl.2) devs
    | None, None => True
    | _, _ => False
    end.
Proof.
  revert sites. induction devs as [|[dev l] devs IH]; intros sites.
  { intros [= <-] k. destruct (sites !! k); [|done]. split; [done|].
    intros x. split; [by left|]. by intros [?|?%Exists_nil]. }
  cbn [import_vlans_from_configs]. rewrite config_vlans_of_device_on.
  assert (∀ k x,
            Exists (λ dl : DeviceObj * list Z,
                      dev_site dl.1 = Some k ∧ x ∈ dl.2) ((dev, l) :: devs)
            ↔ (dev_site dev = Some k ∧ x ∈ l)
              ∨ Exists (λ dl : DeviceObj * list Z,
                          dev_site dl.1 = Some k ∧ x ∈ dl.2) devs) as HE
    by (intros; by rewrite Exists_cons).
  destruct l as [|y l].
  { simpl. intros H k. specialize (IH _ H k).
    destruct (sites !! k), (sites' !! k); try done.
    destruct IH as [IH1 IH2]. split; [done|]. intros x.
    rewrite IH2, HE. split; [intros [?|?]; auto|].
    intros [?|[[_ ?%elem_of_nil]|?]]; auto; done. }
  destruct (dev_site dev) as [k0|] eqn:Hsite; [|done]. simpl.
  intros H k. specialize (IH _ H k).
  destruct (decide (k0 = k)) as [->|Hne].
  - rewrite lookup_alter_eq in IH.
    destruct (sites !! k) as [site|], (sites' !! k) as [site'|];
      simpl in IH; try done.
    destruct IH as [IH1 IH2].
    destruct (import_vlans_config_ids (y :: l) site) as [Hn Hids].
    split; [exact (eq_trans IH1 Hn)|]. intros x.
    rewrite HE. etrans; [apply IH2|].
    split.
    + intros [[?|?]%Hids|?]; auto.
    + intros [?|[[_ ?]|?]]; [left; apply Hids; by left
                            |left; apply Hids; by right|by right].
  - rewrite lookup_alter_ne in IH by done.
    destruct (sites !! k) as [site|], (sites' !! k) as [site'|]; try done.
    destruct IH as [IH1 IH2]. split; [done|]. intros x.
    rewrite IH2, HE. split; [intros [?|?]; auto|].
    intros [?|[[? _]|?]]; auto. congruence.
Qed.

Lemma cli_vlans_of_results_cons (hosts : InventoryHosts) (sites : Sites)
    (r : string * VlanTask) (rest : list (string * VlanTask)) :
  cli_vlans_of_results authoritative add_vlan2 hosts sites (r :: rest)
  = match cli_vlans_of_result authoritative add_vlan2 hosts sites r.1 r.2 with
    | None => None
    | Some (sites', ws) =>
        match cli_vlans_of_results authoritative add_vlan2 hosts sites' rest
        with
        | None => None
        | Some (sites'', ws') => Some (sites'', ws ++ ws')
        end
    end.
Proof.
  destruct r as [dev_name task]. simpl.
  destruct (cli_vlans_of_result _ _ hosts sites dev_name task)
    as [[sites' ws]|]; [|done]. simpl.
  by destruct (cli_vlans_of_results _ _ hosts sites' rest) as [[? ?]|].
Qed.


End VlanImportFacts.

(** X19 (one VLAN source per run).  The two imports test the same setting
    against different words, so whatever [config.main["import_vlans"]]
    holds, at least one of them is idle: the import from the configurations
    leaves every site as it is, or the import from the devices does and
    warns about nothing. *)
Theorem vlan_sources_exclusive (authoritative : Source → bool)
    (add_vlan2 : NetworkImporterSite → string → Z → NetworkImporterSite)
    (import_vlans : string) :
  (∀ sites devs,
     import_vlans_from_configs authoritative import_vlans sites devs
     = Some sites)
  ∨ (∀ hosts sites results,
       import_vlans_from_cmds authoritative add_vlan2 import_vlans hosts
         sites results = Some (sites, [])).
Proof.
  destruct (decide (import_vlans = "config")) as [->|Hne].
  - right. intros hosts sites results. done.
  - left. intros sites devs. by apply import_vlans_from_configs_off.
Qed.

(** X20 (sites gather the VLANs of their devices).  When the import from
    the configurations ends, the registered sites are the same as before
    under the same names, and the VLAN ids of a site are those it had and
    those reported for any device that refers to it: devices of one site
    fill one registry. *)
Theorem config_import_gathers (authoritative : Source → bool)
    (sites sites' : Sites) (devs : list (DeviceObj * list Z)) :
  import_vlans_from_configs authoritative "config" sites devs = Some sites' →
  (∀ k, is_Some (sites' !! k) ↔ is_Some (sites !! k)) ∧
  (∀ k site site', sites !! k = Some site → sites' !! k = Some site' →
     site_name site' = site_name site ∧
     ∀ x, is_Some (vlans site' !! x)
          ↔ is_Some (vlans site !! x)
            ∨ ∃ dev l, (dev, l) ∈ devs ∧ dev_site dev = Some k ∧ x ∈ l).
Proof.
  intros H. pose proof (import_vlans_from_configs_ids _ _ _ _ H) as Hk.
  split.
  - intros k. specialize (Hk k).
    destruct (sites !! k), (sites' !! k); try done.
    all: split; intros [? ?]; by eexists.
  - intros k site site' Hs Hs'. specialize (Hk k).
    rewrite Hs, Hs' in Hk. destruct Hk as [Hn Hx]. split; [done|].
    intros x. rewrite Hx, Exists_exists. split.
    + intros [?|([dev l] & ? & ? & ?)]; [by left|right]. by exists dev, l.
    + intros [?|(dev & l & ? & ? & ?)]; [by left|right]. by exists (dev, l).
Qed.

Lemma config_import_gathers_witness :
  is_Some
    ((alter (λ site, import_vlans_config cli_names site [200; 300]%Z) "dc1"
        (alter (λ site, import_vlans_config cli_names site [100; 200]%Z)
           "dc1" dc1_only)) !! "dc1")
  ↔ is_Some (dc1_only !! "dc1").
Proof.
  refine (proj1 (config_import_gathers cli_names dc1_only _ reported_vlans _)
            "dc1").
  reflexivity.
Defined.



(** X22 (known VLANs are left alone).  The import from the devices adds a
    collected VLAN only when its id is not yet a key of the site.  When
    every id collected from a device is already a key of the site that the
    device refers to, the import changes no site at all: no entry is added,
    renamed or replaced, whatever names the devices report. *)
Theorem cmds_known_vlans_untouched (authoritative : Source → bool)
    (add_vlan2 : NetworkImporterSite → string → Z → NetworkImporterSite)
    (hosts : InventoryHosts) (sites sites' : Sites)
    (results : list (string * VlanTask)) (ws : list CmdWarning) :
  import_vlans_from_cmds authoritative add_vlan2 "cli" hosts sites results
    = Some (sites', ws) →
  (∀ dev_name task collected dev k site,
     (dev_name, task) ∈ results → data_vlans task = Some collected →
     host_obj hosts dev_name = Some dev → dev_site dev = Some k →
     sites !! k = Some site →
     Forall (λ vlan, is_Some (vlans site !! vlan_id vlan)) collected) →
  sites' = sites.
Proof.
  unfold import_vlans_from_cmds. simpl.
  revert sites' ws.
  induction results as [|[dev_name task] rest IH]; intros sites' ws.
  { by intros [= <- <-]. }
  rewrite cli_vlans_of_results_cons. simpl.
  intros H Hknown.
  assert (∀ ws1 s1, cli_vlans_of_result authoritative add_vlan2 hosts sites
                      dev_name task = Some (s1, ws1) → s1 = sites) as Hstep.
  { unfold cli_vlans_of_result. intros ws1 s1.
    destruct (failed task); [by intros [= <- <-]|].
    destruct (data_vlans task) as [[|v vs]|] eqn:Hd;
      [by intros [= <- <-]| |by intros [= <- <-]].
    destruct (host_obj hosts dev_name) as [dev|] eqn:Hh; [|done]. simpl.
    destruct (dev_site dev) as [k|] eqn:Hs; [|done]. simpl.
    intros [= <- <-]. apply alter_id. intros site Hsite.
    refine (import_vlans_cli_known authoritative add_vlan2 (v :: vs) site _).
    eapply Hknown; [by left|done..]. }
  destruct (cli_vlans_of_result _ _ hosts sites dev_name task)
    as [[sites1 ws1]|] eqn:E1; [|done].
  rewrite (Hstep _ _ eq_refl) in *.
  destruct (cli_vlans_of_results _ _ hosts sites rest)
    as [[sites2 ws2]|] eqn:E2; [|done].
  injection H as <- <-. eapply IH; [done|].
  intros dn t c d k site Hin. apply Hknown. by right.
Qed.

Lemma cmds_known_vlans_untouched_witness :
  alter (λ site, import_vlans_cli cli_names add_vlan2_ignored site
                   [{| cli_name := "prod"; vlan_id := 100 |}])
        "dc1" dc1_with_100
  = dc1_with_100.
Proof.
  refine (cmds_known_vlans_untouched cli_names add_vlan2_ignored sited_hosts
            dc1_with_100 _ known_collection [] eq_refl _).
  intros dev_name task collected dev k site
    [[= -> ->]|?%elem_of_nil]%elem_of_cons; [|done].
  intros [= <-] [= <-] [= <-] [= <-].
  repeat constructor. vm_compute. by eexists.
Defined.

(** X23 (when the import from the configurations raises).  The import
    raises exactly when the setting is [config] and some device whose site
    was never set has at least one VLAN reported: the method reads
    [dev.site] only inside the loop over the VLANs.  With any other
    setting, or when such devices report no VLAN, it never raises. *)
Theorem config_import_raises (authoritative : Source → bool)
    (import_vlans : string) (sites : Sites)
    (devs : list (DeviceObj * list Z)) :
  import_vlans_from_configs authoritative import_vlans sites devs = None
  ↔ import_vlans = "config"
    ∧ Exists (λ dl, dev_site dl.1 = None ∧ dl.2 ≠ []) devs.
Proof.
  destruct (decide (import_vlans = "config")) as [->|Hne].
  - rewrite import_vlans_from_configs_none. by split; [|intros [_ ?]].
  - rewrite import_vlans_from_configs_off by done. by split; [|intros [? _]].
Qed.

(** X24 (devices without remote record and the config import).  [init]
    sets the site of the devices that exist remotely and of no other.  So
    when a device that does not exist remotely, and had no site before, has
    a VLAN reported by the analysis, the import from the configurations that
    follows [init] raises under the setting [config]. *)
Theorem unsited_device_stops_import (initial_vlans : string → gmap Z Vlan)
    (authoritative : Source → bool) (sites sites' : Sites)
    (hosts hosts' : InventoryHosts) (bf_vlans : string → list Z)
    (dev_name : string) (dev : DeviceObj) :
  init_sites initial_vlans sites hosts = Some (sites', hosts') →
  (dev_name, dev) ∈ hosts →
  dev_exist_remote dev = false → dev_site dev = None →
  bf_vlans dev_name ≠ [] →
  import_vlans_from_configs authoritative "config" sites'
    ((λ nd : string * DeviceObj, (nd.2, bf_vlans nd.1)) <$> hosts')
  = None.
Proof.
  intros H Hin He Hs Hv.
  apply import_vlans_from_configs_none, Exists_exists.
  exists (dev, bf_vlans dev_name). split; [|done].
  apply list_elem_of_fmap. exists (dev_name, dev). split; [done|].
  rewrite (init_sites_hosts _ _ _ _ _ H).
  apply list_elem_of_fmap. exists (dev_name, dev). split; [|done].
  simpl. rewrite He. by destruct (dev_remote_site_slug dev).
Qed.

Lemma unsited_device_stops_import_witness :
  import_vlans_from_configs cli_names "config" dc1_only
    ((λ nd : string * DeviceObj, (nd.2, [100%Z])) <$> sited_hosts)
  = None.
Proof.
  refine (unsited_device_stops_import no_vlans cli_names ∅ dc1_only
            fresh_hosts sited_hosts (λ _, [100%Z]) "sw2"
            {| dev_exist_remote := false; dev_remote_site_slug := None;
               dev_site := None |} _ _ eq_refl eq_refl _).
  - vm_compute. reflexivity.
  - right. left.
  - done.
Defined.

(** X25 (from [init] to the registries).  Start with no site and with
    devices whose site is not set, run the loop of [init] and then the
    import from the configurations under the setting [config].  When both
    end, every site is registered under its own name, and its VLAN ids are
    those a new site starts with and those reported for the devices that
    exist remotely with that site's slug. *)
Theorem init_then_config_import (initial_vlans : string → gmap Z Vlan)
    (authoritative : Source → bool) (sites' sites'' : Sites)
    (hosts hosts' : InventoryHosts) (bf_vlans : string → list Z) :
  Forall (λ nd : string * DeviceObj, dev_site nd.2 = None) hosts →
  init_sites initial_vlans ∅ hosts = Some (sites', hosts') →
  import_vlans_from_configs authoritative "config" sites'
    ((λ nd : string * DeviceObj, (nd.2, bf_vlans nd.1)) <$> hosts')
  = Some sites'' →
  ∀ k site, sites'' !! k = Some site →
    site_name site = k ∧
    ∀ x, is_Some (vlans site !! x)
         ↔ is_Some (initial_vlans k !! x)
           ∨ ∃ dev_name dev,
               (dev_name, dev) ∈ hosts ∧ dev_exist_remote dev = true ∧
               dev_remote_site_slug dev = Some k ∧ x ∈ bf_vlans dev_name.
Proof.
  intros Hfresh Hinit Himp k site Hk.
  pose proof (import_vlans_from_configs_ids _ _ _ _ Himp k) as Hids.
  rewrite Hk in Hids.
  destruct (sites' !! k) as [site'|] eqn:Hk'; [|done].
  destruct Hids as [Hname Hx].
  pose proof (init_sites_sites _ _ _ _ _ Hinit k) as Hs.
  rewrite Hk', lookup_empty in Hs. case_bool_decide; [|done].
  injection Hs as ->. split; [done|].
  intros x. rewrite Hx. simpl.
  assert (Exists (λ dl : DeviceObj * list Z,
                    dev_site dl.1 = Some k ∧ x ∈ dl.2)
            ((λ nd : string * DeviceObj, (nd.2, bf_vlans nd.1)) <$> hosts')
          ↔ ∃ dev_name dev,
              (dev_name, dev) ∈ hosts ∧ dev_exist_remote dev = true ∧
              dev_remote_site_slug dev = Some k ∧ x ∈ bf_vlans dev_name)
    as ->; [|done].
  rewrite (init_sites_hosts _ _ _ _ _ Hinit), Exists_exists.
  rewrite Forall_forall in Hfresh.
  split.
  - intros ([dev' l] & Hin & Hsite & Hxl). simpl in *.
    apply list_elem_of_fmap in Hin as ([dn d'] & [= -> ->] & Hin).
    apply list_elem_of_fmap in Hin as ([dn' d] & [= -> ->] & Hin).
    simpl in *. exists dn', d. split; [done|].
    pose proof (Hfresh _ Hin) as Hnone. simpl in Hnone.
    destruct (dev_remote_site_slug d) as [k'|] eqn:Hslug;
      [|congruence].
    destruct (dev_exist_remote d) eqn:He; [|congruence].
    simpl in Hsite. by injection Hsite as ->.
  - intros (dn & d & Hin & He & Hslug & Hxl).
    exists (set_site d k, bf_vlans dn). split; [|done].
    apply list_elem_of_fmap.
    exists (dn, set_site d k). split; [done|].
    apply list_elem_of_fmap. exists (dn, d). split; [|done].
    simpl. by rewrite Hslug, He.
Qed.

Lemma init_then_config_import_witness :
  site_name (import_vlans_config cli_names (new_site no_vlans "dc1") [100%Z])
  = "dc1".
Proof.
  refine (proj1 (init_then_config_import no_vlans cli_names dc1_only _
                   [("sw1", {| dev_exist_remote := true;
                               dev_remote_site_slug := Some "dc1";
                               dev_site := None |})]
                   [("sw1", {| dev_exist_remote := true;
                               dev_remote_site_slug := Some "dc1";
                               dev_site := Some "dc1" |})]
                   (λ _, [100%Z]) _ _ _ "dc1" _ _)).
  - by repeat constructor.
  - vm_compute. reflexivity.
  - reflexivity.
  - vm_compute. reflexivity.
Defined.
